(** * Lalitha: a shallow embedding of [lalitha.py]

    The module turns a spreadsheet schedule (one pandas DataFrame per sheet)
    and a YAML configuration into calendar event dictionaries.  This file
    embeds the pure core of [lalitha.py]:
    - [get_event_from_entry]   (role lookup, description stamp, datetimes),
    - [get_events_from_df]     (cell scan, upward date search, weekday check),
    - [get_recurrence_events]  (first qualifying date, RRULE string),
    - the event order of [main] (grid events, then recurring events),
    - [get_cfg]                (the two credential paths),
    - [get_calendar], [create_event] and the batch of [main], against a
      model of the Calendar service.

    Modelling choices.
    - A date ([datetime.date]) is a day number: days since 1970-01-01.  A
      [pd.Timestamp] is a 64-bit count of nanoseconds: a day number and the
      nanoseconds since its midnight; the midnights it can hold are the day
      numbers in [-106751, 106751] (1677-09-22 .. 2262-04-11).
    - A time of day is a number of seconds since midnight.
    - [pd.to_datetime(s, format=...)] (pandas 2, [array_strptime]) reads the
      empty string and the NaT strings as [NaT], and ["now"] and ["today"]
      as the current time, before it tries the format.
    - The wall clock: a run reads it at every [pd.Timestamp.now()] and at
      every parse of ["now"] or ["today"]; the functions that read it take
      the readings of the run ([clk n] is the [n]-th) and the index of the
      next one, and return the index after their last.
    - A DataFrame is a list of rows; a row is a list of cells; a cell is
      [None] for a missing value (NaN) and [Some s] for a text cell.  Rows
      and columns are addressed by their zero-based positions, which are also
      their labels (the default RangeIndex).  A row shorter than the frame is
      padded with NaN, as pandas does.
    - Python exceptions are the constructors of [error]; a function that may
      raise returns a [result]. *)

From Stdlib Require Import String Ascii ZArith List Bool Lia.
From Stdlib Require Import Sorting.Sorted Sorting.Permutation.
Import ListNotations.
Open Scope string_scope.
Open Scope Z_scope.

(** ** Exceptions and the result monad *)

Inductive error : Type :=
  (** [raise ValueError(f"No date was found for entry in coordinates {indices}")] *)
  | ValueError_no_date (coords : Z * Z)
  (** [assert ..., f"Day of week does not match date for entry in coordinates {indices}"] *)
  | AssertionError_day (coords : Z * Z)
  (** [KeyError] of [cfg["role_info"][role]]: the key is the role cell *)
  | KeyError_role (key : option string)
  (** [KeyError] of [df[col_i][row]]: a row label absent from the frame *)
  | KeyError_row (row : Z)
  (** [ValueError] of [pd.to_datetime(s, format=...)] on a string *)
  | ValueError_parse (s : string)
  (** [ValueError("NaTType does not support " + method)]: [NaT.strftime],
      [NaT.time] *)
  | ValueError_NaT (method : string)
  (** [OutOfBoundsDatetime]: a timestamp left the representable range *)
  | OutOfBoundsDatetime.

Inductive result (A : Type) : Type :=
  | Ok (a : A)
  | Err (e : error).
Arguments Ok {A} a.
Arguments Err {A} e.

Definition bind {A B} (m : result A) (k : A -> result B) : result B :=
  match m with
  | Ok a => k a
  | Err e => Err e
  end.

Notation "x <- m ;; k" := (bind m (fun x => k))
  (at level 61, m at next level, right associativity).

Definition of_option {A} (e : error) (o : option A) : result A :=
  match o with
  | Some a => Ok a
  | None => Err e
  end.

(** ** Calendar arithmetic (proleptic Gregorian, as [datetime]) *)

Definition is_leap (y : Z) : bool :=
  (y mod 4 =? 0) && (negb (y mod 100 =? 0) || (y mod 400 =? 0)).

Definition days_in_month (y m : Z) : Z :=
  if m =? 2 then (if is_leap y then 29 else 28)
  else if (m =? 4) || (m =? 6) || (m =? 9) || (m =? 11) then 30
  else 31.

(** Day number of a civil date (days since 1970-01-01). *)
Definition days_from_civil (y m d : Z) : Z :=
  let y' := if m <=? 2 then y - 1 else y in
  let era := y' / 400 in
  let yoe := y' - era * 400 in
  let mp := if m >? 2 then m - 3 else m + 9 in
  let doy := (153 * mp + 2) / 5 + d - 1 in
  let doe := yoe * 365 + yoe / 4 - yoe / 100 + doy in
  era * 146097 + doe - 719468.

(** Civil date (year, month, day) of a day number. *)
Definition civil_from_days (z : Z) : Z * Z * Z :=
  let z := z + 719468 in
  let era := z / 146097 in
  let doe := z - era * 146097 in
  let yoe := (doe - doe / 1460 + doe / 36524 - doe / 146096) / 365 in
  let doy := doe - (365 * yoe + yoe / 4 - yoe / 100) in
  let mp := (5 * doy + 2) / 153 in
  let d := doy - (153 * mp + 2) / 5 + 1 in
  let m := if mp <? 10 then mp + 3 else mp - 9 in
  let y := yoe + era * 400 + (if m <=? 2 then 1 else 0) in
  (y, m, d).

(** The midnights a [pd.Timestamp] can represent. *)
Definition min_day : Z := -106751.
Definition max_day : Z := 106751.

Definition in_bounds (dn : Z) : bool := (min_day <=? dn) && (dn <=? max_day).

(** [date.strftime("%A")]: 1970-01-01 was a Thursday. *)
Definition weekday_names : list string :=
  ["Monday"; "Tuesday"; "Wednesday"; "Thursday"; "Friday"; "Saturday"; "Sunday"]%string.

Definition weekday_index (dn : Z) : Z := (dn + 3) mod 7.

Definition strftime_A (dn : Z) : string :=
  nth (Z.to_nat (weekday_index dn)) weekday_names EmptyString.

(** ** Character helpers *)

Definition digit_val (a : ascii) : option Z :=
  let n := nat_of_ascii a in
  if (48 <=? n)%nat && (n <=? 57)%nat then Some (Z.of_nat n - 48) else None.

Definition digit_char (n : Z) : ascii := ascii_of_nat (Z.to_nat (48 + n)).

(** Value of a non-empty string of decimal digits. *)
Fixpoint digits_acc (acc : Z) (l : list ascii) : option Z :=
  match l with
  | [] => Some acc
  | a :: t =>
      match digit_val a with
      | Some v => digits_acc (10 * acc + v) t
      | None => None
      end
  end.

Definition digits_value (l : list ascii) : option Z :=
  match l with
  | [] => None
  | _ => digits_acc 0 l
  end.

Fixpoint split_on (sep : ascii) (l : list ascii) : list (list ascii) :=
  match l with
  | [] => [[]]
  | a :: t =>
      let parts := split_on sep t in
      if Ascii.eqb a sep then [] :: parts
      else match parts with
           | p :: ps => (a :: p) :: ps
           | [] => [[a]]
           end
  end.

(** Python's [\s] on ASCII: space, \t, \n, \v, \f, \r. *)
Definition is_space (a : ascii) : bool :=
  let n := nat_of_ascii a in (n =? 32)%nat || ((9 <=? n)%nat && (n <=? 13)%nat).

Definition is_digit (a : ascii) : bool :=
  match digit_val a with Some _ => true | None => false end.

Fixpoint span (p : ascii -> bool) (l : list ascii) : list ascii * list ascii :=
  match l with
  | a :: t => if p a then let (x, y) := span p t in (a :: x, y) else ([], l)
  | [] => ([], [])
  end.

Definition lower (a : ascii) : ascii :=
  let n := nat_of_ascii a in
  if (65 <=? n)%nat && (n <=? 90)%nat then ascii_of_nat (n + 32) else a.

Definition upper (a : ascii) : ascii :=
  let n := nat_of_ascii a in
  if (97 <=? n)%nat && (n <=? 122)%nat then ascii_of_nat (n - 32) else a.

(** [str.upper()] on ASCII text. *)
Definition str_upper (s : string) : string :=
  string_of_list_ascii (map upper (list_ascii_of_string s)).

(** [x[:2]] *)
Definition prefix2 (s : string) : string := substring 0 2 s.

(** [','.join(xs)] *)
Fixpoint join (sep : string) (xs : list string) : string :=
  match xs with
  | [] => EmptyString
  | [x] => x
  | x :: t => x ++ sep ++ join sep t
  end.


(** ** [pd.to_datetime(s, format=...)]

    After the empty string, the NaT strings, ["now"] and ["today"] (below),
    pandas matches the whole string against the regular expression of the
    format ([array_strptime]): [%m] is [1[0-2]|0[1-9]|[1-9]], [%d] is
    [3[01]|[12]\d|0[1-9]|[1-9]| [1-9]], [%Y] is four digits, [%I] is
    [1[0-2]|0[1-9]|[1-9]], [%M] is [[0-5]\d|\d], [%p] is [am|pm] (case
    insensitive), and a space of the format matches [\s+].  A day past the
    end of the month, or a date outside the timestamp range, raises
    [ValueError] ([OutOfBoundsDatetime] is one). *)

(** [Some v] when [v] lies in [[lo, hi]]. *)
Definition within (lo hi : Z) (o : option Z) : option Z :=
  match o with
  | Some v => if (lo <=? v) && (v <=? hi) then Some v else None
  | None => None
  end.

(** One or two digits. *)
Definition one_or_two_digits (l : list ascii) : option Z :=
  match l with
  | [_] | [_; _] => digits_value l
  | _ => None
  end.

(** [%m] *)
Definition parse_month (l : list ascii) : option Z :=
  within 1 12 (one_or_two_digits l).

(** [%d], with its alternative [ [1-9]] (a space, then a digit). *)
Definition parse_day (l : list ascii) : option Z :=
  within 1 31
    (match l with
     | [a; b] => if Ascii.eqb a " "%char then digits_value [b] else digits_value l
     | _ => one_or_two_digits l
     end).

(** [%Y] *)
Definition parse_year (l : list ascii) : option Z :=
  match l with
  | [_; _; _; _] => digits_value l
  | _ => None
  end.

(** The fields matched by ["%m/%d/%Y"]. *)
Definition mdY_fields (s : string) : option (Z * Z * Z) :=
  match split_on "/"%char (list_ascii_of_string s) with
  | [lm; ld; ly] =>
      match parse_month lm, parse_day ld, parse_year ly with
      | Some m, Some d, Some y => Some (y, m, d)
      | _, _, _ => None
      end
  | _ => None
  end.


(** The format match of ["%m/%d/%Y"]: [None] where it raises [ValueError]. *)
Definition strptime_mdY (s : string) : option Z :=
  match mdY_fields s with
  | Some (y, m, d) =>
      if d <=? days_in_month y m then
        let dn := days_from_civil y m d in
        if in_bounds dn then Some dn else None
      else None
  | None => None
  end.

(** [%I] *)
Definition parse_hour12 (l : list ascii) : option Z :=
  within 1 12 (one_or_two_digits l).

(** [%M] *)
Definition parse_minute (l : list ascii) : option Z :=
  within 0 59 (one_or_two_digits l).

(** [%p]: [Some false] for AM, [Some true] for PM. *)
Definition parse_ampm (l : list ascii) : option bool :=
  match map lower l with
  | ["a"%char; "m"%char] => Some false
  | ["p"%char; "m"%char] => Some true
  | _ => None
  end.


(** The format match of ["%I:%M %p"], as [.time()] in seconds since
    midnight: [None] where it raises [ValueError]. *)
Definition strptime_IMp (s : string) : option Z :=
  match split_on ":"%char (list_ascii_of_string s) with
  | [li; rest] =>
      let (lm, rest') := span is_digit rest in
      let (sp, lp) := span is_space rest' in
      match sp with
      | [] => None
      | _ =>
          match parse_hour12 li, parse_minute lm, parse_ampm lp with
          | Some i, Some mi, Some pm =>
              Some (((i mod 12) + (if pm then 12 else 0)) * 3600 + mi * 60)
          | _, _, _ => None
          end
      end
  | _ => None
  end.

(** [nat_strings] of pandas: the texts it reads as [NaT]. *)
Definition nat_strings : list string := ["NaT"; "nat"; "NAT"; "nan"; "NaN"; "NAN"].

(** What [pd.to_datetime] makes of a string, before the clock is read. *)
Inductive parsed (A : Type) : Type :=
  (** the format matched: the value it denotes *)
  | PVal (a : A)
  (** [""] or a NaT string: [NaT] *)
  | PNaT
  (** ["now"] or ["today"]: the current timestamp *)
  | PNow.
Arguments PVal {A} a.
Arguments PNaT {A}.
Arguments PNow {A}.

(** [pd.to_datetime(s, format=...)] on a string, with the early paths of
    [array_strptime]; [None] where it raises [ValueError]. *)
Definition to_datetime {A} (strptime : string -> option A) (s : string)
  : option (parsed A) :=
  if String.eqb s "" || existsb (String.eqb s) nat_strings then Some PNaT
  else if String.eqb s "now" || String.eqb s "today" then Some PNow
  else match strptime s with
       | Some a => Some (PVal a)
       | None => None
       end.

Definition to_datetime_mdY (s : string) : option (parsed Z) := to_datetime strptime_mdY s.
Definition to_datetime_IMp (s : string) : option (parsed Z) := to_datetime strptime_IMp s.

(** ** [strftime] *)

(** The [w] low decimal digits of [n], most significant first. *)
Fixpoint fixed_digits (w : nat) (n : Z) : string :=
  match w with
  | O => EmptyString
  | S w' => fixed_digits w' (n / 10) ++ String (digit_char (n mod 10)) EmptyString
  end.

(** ["%Y"] prints a year of the timestamp range with four digits. *)
Definition fmt_Y (y : Z) : string := fixed_digits 4 y.
Definition fmt_2 (n : Z) : string := fixed_digits 2 n.

(** [date.strftime("%Y-%m-%d")] *)
Definition strftime_Ymd_dash (dn : Z) : string :=
  let '(y, m, d) := civil_from_days dn in
  fmt_Y y ++ "-" ++ fmt_2 m ++ "-" ++ fmt_2 d.

(** [strftime("%Y%m%d")] *)
Definition strftime_Ymd (dn : Z) : string :=
  let '(y, m, d) := civil_from_days dn in
  fmt_Y y ++ fmt_2 m ++ fmt_2 d.

(** [strftime("%H:%M:%S")] of a time of day. *)
Definition strftime_HMS (t : Z) : string :=
  fmt_2 (t / 3600) ++ ":" ++ fmt_2 ((t / 60) mod 60) ++ ":" ++ fmt_2 (t mod 60).

(** A [datetime]: a day number and a time of day; [datetime.combine]. *)
Definition datetime : Type := (Z * Z)%type.
Definition combine (dn t : Z) : datetime := (dn, t).

(** Chronological order of datetimes. *)
Definition dt_lt (a b : datetime) : Prop :=
  fst a < fst b \/ (fst a = fst b /\ snd a < snd b).

(** [dt.strftime("%Y-%m-%dT%H:%M:%S")] *)
Definition strftime_iso (dt : datetime) : string :=
  strftime_Ymd_dash (fst dt) ++ "T" ++ strftime_HMS (snd dt).


(** ** The wall clock

    A reading of the clock is the [pd.Timestamp] of [pd.Timestamp.now()]:
    the local wall time in nanoseconds since 1970-01-01 00:00. *)
Record clock : Type := mk_clock { clock_ns : Z }.

(** The readings of one run: [clk n] is the [n]-th. *)
Definition clock_src : Type := nat -> clock.

Definition day_ns : Z := 86400000000000.

Definition now_day (c : clock) : Z := clock_ns c / day_ns.
(** Nanoseconds since midnight. *)
Definition now_tod (c : clock) : Z := clock_ns c mod day_ns.
Definition now_hour (c : clock) : Z := now_tod c / 3600000000000.
Definition now_minute (c : clock) : Z := (now_tod c / 60000000000) mod 60.
(** [.time()] of the reading in whole seconds, as ["%H:%M:%S"] prints it. *)
Definition now_seconds (c : clock) : Z := now_tod c / 1000000000.

(** [pd.Timestamp.now().strftime("%m/%d/%Y at %I:%M %p")] *)
Definition strftime_now (c : clock) : string :=
  let '(y, m, d) := civil_from_days (now_day c) in
  let h12 := if now_hour c mod 12 =? 0 then 12 else now_hour c mod 12 in
  fmt_2 m ++ "/" ++ fmt_2 d ++ "/" ++ fmt_Y y ++ " at " ++ fmt_2 h12 ++ ":"
    ++ fmt_2 (now_minute c) ++ " " ++ (if now_hour c <? 12 then "AM" else "PM").

(** A [pd.Timestamp] (a day number and the nanoseconds since its midnight)
    or [NaT]. *)
Inductive timestamp : Type :=
  | TS (dn tod : Z)
  | TNaT.

(** The timestamp of a parsed ["%m/%d/%Y"] string, reading the clock for
    ["now"]/["today"]; with the index of the next reading. *)
Definition read_timestamp (clk : clock_src) (n : nat) (p : parsed Z) : timestamp * nat :=
  match p with
  | PVal dn => (TS dn 0, n)
  | PNaT => (TNaT, n)
  | PNow => (TS (now_day (clk n)) (now_tod (clk n)), S n)
  end.

(** [pd.to_datetime(s, format="%I:%M %p").time()], in seconds since
    midnight; [NaT.time()] raises. *)
Definition read_time (clk : clock_src) (n : nat) (s : string) : result (Z * nat) :=
  match to_datetime_IMp s with
  | None => Err (ValueError_parse s)
  | Some (PVal t) => Ok (t, n)
  | Some PNaT => Err (ValueError_NaT "time")
  | Some PNow => Ok (now_seconds (clk n), S n)
  end.

(** ** Configuration and events *)

(** [cfg["role_info"][role]] *)
Record role_info : Type := mk_role_info {
  ri_title : string;
  ri_location : string;
  ri_start_time : string;
  ri_end_time : string
}.

(** An entry of [cfg["recurring_schedules"]]. *)
Record schedule_entry : Type := mk_entry {
  entry_title : string;
  entry_location : string;
  entry_days : list string;
  entry_start_time : string;
  entry_end_time : string;
  entry_start_date : string;
  entry_end_date : string
}.

Record config : Type := mk_config {
  aliases : list string;
  role_infos : list (string * role_info);
  recurring_schedules : list schedule_entry
}.

(** The dictionaries yielded by the two generators; [recurrence] is present
    only in those of [get_recurrence_events]. *)
Record event : Type := mk_event {
  title : string;
  location : string;
  description : string;
  start_datetime : string;
  end_datetime : string;
  recurrence : option string
}.

(** A cell of a DataFrame: [None] is NaN. *)
Definition cell : Type := option string.
Definition frame : Type := list (list cell).

(** [cfg["role_info"][key]] on the YAML dictionary. *)
Definition role_lookup (cfg : config) (key : cell) : option role_info :=
  match key with
  | Some k =>
      match find (fun p => String.eqb (fst p) k) (role_infos cfg) with
      | Some (_, ri) => Some ri
      | None => None
      end
  | None => None
  end.

Definition newline : string := String (ascii_of_nat 10) EmptyString.

(** [f"Last updated by Lalitha on {curr_time}\n"] *)
Definition make_description (now : clock) : string :=
  "Last updated by Lalitha on " ++ strftime_now now ++ newline.

(** [get_event_from_entry(cfg, date, role)], from the [n]-th reading of the
    clock on: [pd.Timestamp.now()] for the description, then the parses of
    the two times. *)
Definition get_event_from_entry (cfg : config) (clk : clock_src) (n : nat) (date : Z)
  (role : cell) : result (event * nat) :=
  ri <- of_option (KeyError_role role) (role_lookup cfg role) ;;
  let description := make_description (clk n) in
  p <- read_time clk (S n) (ri_start_time ri) ;;
  let (st, n1) := p in
  q <- read_time clk n1 (ri_end_time ri) ;;
  let (et, n2) := q in
  Ok ({| title := ri_title ri;
         location := ri_location ri;
         description := description;
         start_datetime := strftime_iso (combine date st);
         end_datetime := strftime_iso (combine date et);
         recurrence := None |}, n2).

(** ** The DataFrame scan *)

(** Number of columns of the frame. *)
Definition width (df : frame) : nat :=
  fold_right (fun row acc => Nat.max (length row) acc) 0%nat df.

(** [df.iloc[r, c]] at a position of the frame. *)
Definition iloc (df : frame) (r c : nat) : cell := nth c (nth r df []) None.

(** [df[c][r]]: the row label must exist, else [KeyError]. *)
Definition get_cell (df : frame) (c r : Z) : result cell :=
  if r <? 0 then Err (KeyError_row r)
  else match nth_error df (Z.to_nat r) with
       | Some row => Ok (nth (Z.to_nat c) row None)
       | None => Err (KeyError_row r)
       end.

(** [x in cfg["aliases"]], as [DataFrame.isin] tests it. *)
Definition isin (al : list string) (x : cell) : bool :=
  match x with
  | Some s => existsb (String.eqb s) al
  | None => false
  end.

(** [df.isin(cfg["aliases"]).stack().items()]: one entry per cell, rows
    outermost, columns innermost. *)
Definition stack_isin (al : list string) (df : frame) : list ((Z * Z) * bool) :=
  flat_map (fun r =>
    map (fun c => ((Z.of_nat r, Z.of_nat c), isin al (iloc df r c)))
        (seq 0 (width df)))
    (seq 0 (length df)).

(** [for above_row in range(k - 1, -1, -1)] with its body: [Ok None] is the
    loop running out (the [else] branch), [Ok (Some (p, date_row))] the
    [break] at the first text cell [pd.to_datetime] accepts. *)
Fixpoint scan_up (df : frame) (c : Z) (k : nat) : result (option (parsed Z * Z)) :=
  match k with
  | O => Ok None
  | S k' =>
      x <- get_cell df c (Z.of_nat k') ;;
      match x with
      | None => scan_up df c k'
      | Some s =>
          match to_datetime_mdY s with
          | Some p => Ok (Some (p, Z.of_nat k'))
          | None => scan_up df c k'
          end
      end
  end.

(** The date search of [get_events_from_df] for the entry at [(row_i, col_i)]. *)
Definition resolve_date (df : frame) (row_i col_i : Z) : result (parsed Z * Z) :=
  o <- scan_up df col_i (Z.to_nat row_i) ;;
  match o with
  | Some p => Ok p
  | None => Err (ValueError_no_date (row_i, col_i))
  end.

(** [date.strftime("%A") == day_of_week] *)
Definition day_matches (date : Z) (day_of_week : cell) : bool :=
  match day_of_week with
  | Some s => String.eqb (strftime_A date) s
  | None => false
  end.

(** The body of the loop of [get_events_from_df] for a matching cell: the
    parse at the [break] (which reads the clock for ["now"]/["today"]),
    [.date()] ([NaT] for [NaT]), [df[col_i][date_row-1]], then
    [date.strftime("%A")] ([NaT.strftime] raises). *)
Definition event_for_match (cfg : config) (clk : clock_src) (n : nat) (df : frame)
  (row_i col_i : Z) : result (event * nat) :=
  let role := iloc df (Z.to_nat row_i) 0 in
  p <- resolve_date df row_i col_i ;;
  let (parsed_date, date_row) := p in
  let (ts, n1) := read_timestamp clk n parsed_date in
  day_of_week <- get_cell df col_i (date_row - 1) ;;
  match ts with
  | TNaT => Err (ValueError_NaT "strftime")
  | TS date _ =>
      if day_matches date day_of_week
      then get_event_from_entry cfg clk n1 date role
      else Err (AssertionError_day (row_i, col_i))
  end.

(** A generator run to its end: the values it yielded and the exception
    that stopped it, if any. *)
Definition gen (A : Type) : Type := (list A * option error)%type.

Definition gen_app {A} (xs : list A) (g : gen A) : gen A :=
  (app xs (fst g), snd g).

Fixpoint scan_cells (cfg : config) (clk : clock_src) (df : frame)
  (cells : list ((Z * Z) * bool)) (n : nat) : gen event * nat :=
  match cells with
  | [] => (([], None), n)
  | ((r, c), value) :: rest =>
      if value then
        match event_for_match cfg clk n df r c with
        | Ok (ev, n') =>
            let (g, n'') := scan_cells cfg clk df rest n' in (gen_app [ev] g, n'')
        | Err e => (([], Some e), n)
        end
      else scan_cells cfg clk df rest n
  end.

(** [get_events_from_df(cfg, df_dict)]: [df_dict] in its iteration order. *)
Fixpoint get_events_from_df (cfg : config) (clk : clock_src)
  (sheets : list (string * frame)) (n : nat) : gen event * nat :=
  match sheets with
  | [] => (([], None), n)
  | (_, df) :: rest =>
      match scan_cells cfg clk df (stack_isin (aliases cfg) df) n with
      | ((evs, Some e), n') => ((evs, Some e), n')
      | ((evs, None), n') =>
          let (g, n'') := get_events_from_df cfg clk rest n' in (gen_app evs g, n'')
      end
  end.

(** ** Recurring schedules *)

(** [while first_date.strftime("%A") not in days:
        first_date += pd.DateOffset(days=1)]
    Adding a day past [last], the last day the timestamp can reach, raises.
    [fuel] only makes the recursion structural: [first_date_loop_at] starts
    it high enough that the bound is always reached first. *)
Fixpoint advance_until (last : Z) (fuel : nat) (days : list string) (first_date : Z)
  : result Z :=
  if existsb (String.eqb (strftime_A first_date)) days then Ok first_date
  else match fuel with
       | O => Err OutOfBoundsDatetime
       | S fuel' =>
           if last <? first_date + 1 then Err OutOfBoundsDatetime
           else advance_until last fuel' days (first_date + 1)
       end.

(** The loop from a midnight. *)
Definition advance (fuel : nat) (days : list string) (first_date : Z) : result Z :=
  advance_until max_day fuel days first_date.

(** The largest 64-bit nanosecond count, and the last day a timestamp at
    [tod] nanoseconds past midnight can fall on. *)
Definition int64_max : Z := 9223372036854775807.
Definition last_day (tod : Z) : Z := (int64_max - tod) / day_ns.

(** The loop from day [start] at [tod] nanoseconds past midnight. *)
Definition first_date_loop_at (days : list string) (start tod : Z) : result Z :=
  advance_until (last_day tod) (S (Z.to_nat (last_day tod - start))) days start.

(** The loop from the midnight of [start], as [pd.to_datetime(start_date,
    format="%m/%d/%Y")] gives it. *)
Definition first_date_loop (days : list string) (start : Z) : result Z :=
  first_date_loop_at days start 0.

(** The loop on a timestamp; [NaT.strftime] raises. *)
Definition first_date_of (days : list string) (t : timestamp) : result Z :=
  match t with
  | TS dn tod => first_date_loop_at days dn tod
  | TNaT => Err (ValueError_NaT "strftime")
  end.

(** [.strftime("%Y%m%d")] of a timestamp; [NaT.strftime] raises. *)
Definition strftime_Ymd_ts (t : timestamp) : result string :=
  match t with
  | TS dn _ => Ok (strftime_Ymd dn)
  | TNaT => Err (ValueError_NaT "strftime")
  end.

(** [f"RRULE:FREQ=WEEKLY;BYDAY={','.join(rrule_days)};UNTIL={end_date}"] *)
Definition rrule (days : list string) (until : string) : string :=
  "RRULE:FREQ=WEEKLY;BYDAY=" ++ join "," (map (fun x => str_upper (prefix2 x)) days)
    ++ ";UNTIL=" ++ until.

(** The body of the loop of [get_recurrence_events] for one entry, from the
    [n]-th reading of the clock on. *)
Definition recurrence_event (clk : clock_src) (n : nat) (entry : schedule_entry)
  : result (event * nat) :=
  let description := make_description (clk n) in
  p <- read_time clk (S n) (entry_start_time entry) ;;
  let (st, n1) := p in
  q <- read_time clk n1 (entry_end_time entry) ;;
  let (et, n2) := q in
  sd <- of_option (ValueError_parse (entry_start_date entry))
          (to_datetime_mdY (entry_start_date entry)) ;;
  let (first_ts, n3) := read_timestamp clk n2 sd in
  date <- first_date_of (entry_days entry) first_ts ;;
  ed <- of_option (ValueError_parse (entry_end_date entry))
          (to_datetime_mdY (entry_end_date entry)) ;;
  let (end_ts, n4) := read_timestamp clk n3 ed in
  end_date <- strftime_Ymd_ts end_ts ;;
  Ok ({| title := entry_title entry;
         location := entry_location entry;
         description := description;
         start_datetime := strftime_iso (combine date st);
         end_datetime := strftime_iso (combine date et);
         recurrence := Some (rrule (entry_days entry) end_date) |}, n4).

Fixpoint gen_map {A B} (f : nat -> A -> result (B * nat)) (xs : list A) (n : nat)
  : gen B * nat :=
  match xs with
  | [] => (([], None), n)
  | x :: rest =>
      match f n x with
      | Ok (y, n') => let (g, n'') := gen_map f rest n' in (gen_app [y] g, n'')
      | Err e => (([], Some e), n)
      end
  end.

(** [get_recurrence_events(cfg)] *)
Definition get_recurrence_events (cfg : config) (clk : clock_src) (n : nat) : gen event * nat :=
  gen_map (recurrence_event clk) (recurring_schedules cfg) n.

(** ** [main]

    The events handed to [create_event], in order, when the batch is
    executed; an exception of either generator aborts [main] before
    [batch.execute()].  The run reads the clock [clk] from its first
    reading on. *)
Definition main_events (cfg : config) (clk : clock_src) (sheets : list (string * frame))
  : result (list event) :=
  let (g1, n) := get_events_from_df cfg clk sheets 0 in
  match g1 with
  | (_, Some e) => Err e
  | (evs, None) =>
      match fst (get_recurrence_events cfg clk n) with
      | (_, Some e) => Err e
      | (revs, None) => Ok (app evs revs)
      end
  end.

(** ** Sample inputs *)

Definition sample_cfg : config :=
  {| aliases := ["Alice"];
     role_infos := [("Usher", mk_role_info "Ushering" "Main hall" "09:00 AM" "11:30 AM")];
     recurring_schedules :=
       [mk_entry "Choir" "Room 2" ["Monday"; "Wednesday"] "06:00 PM" "07:00 PM"
                 "05/02/2022" "12/31/2022"] |}.

(** Column 1: blank, a note, a date, its weekday label, the entry. *)
Definition sample_df : frame :=
  [ [Some "Role"; None];
    [None; Some "notes"];
    [None; Some "Wednesday"];
    [None; Some "05/25/2022"];
    [Some "Usher"; Some "Alice"] ].

(** The clock at [hour]:[minute] of day [day]. *)
Definition clock_at (day hour minute : Z) : clock :=
  mk_clock (day * day_ns + hour * 3600000000000 + minute * 60000000000).

(** 2022-05-28 09:00, at every reading. *)
Definition sample_now : clock := clock_at 19140 9 0.
Definition sample_clk : clock_src := fun _ => sample_now.

(** ** Inputs and auxiliary definitions of the properties *)




(** The date cell reads "today". *)
Definition today_df : frame :=
  [ [Some "Role"; None];
    [None; Some "Saturday"];
    [None; Some "today"];
    [Some "Usher"; Some "Alice"] ].

(** Whether the loop condition of [get_recurrence_events] is met at a date. *)
Definition day_in (days : list string) (d : Z) : bool :=
  existsb (String.eqb (strftime_A d)) days.

(** The number of [first_date += pd.DateOffset(days=1)] statements the loop
    from a midnight executes, the one that raises included. *)
Fixpoint advance_steps (fuel : nat) (days : list string) (first_date : Z) : nat :=
  if day_in days first_date then O
  else match fuel with
       | O => O
       | S fuel' =>
           if max_day <? first_date + 1 then 1%nat
           else S (advance_steps fuel' days (first_date + 1))
       end.

Definition empty_days_entry : schedule_entry :=
  mk_entry "Choir" "Room 2" [] "06:00 PM" "07:00 PM" "05/02/2022" "12/31/2022".

Definition mlen (m : Z) : Z :=
  if m =? 2 then 29 else if (m =? 4) || (m =? 6) || (m =? 9) || (m =? 11) then 30 else 31.

Definition spec_rrule_entry : schedule_entry :=
  mk_entry "Choir" "Room 2" ["Monday"; "Wednesday"] "06:00 PM" "07:00 PM"
           "05/02/2022" "12/31/2022".

(** The entry ends "today". *)
Definition today_end_entry : schedule_entry :=
  mk_entry "Choir" "Room 2" ["Monday"; "Wednesday"] "06:00 PM" "07:00 PM"
           "05/02/2022" "today".

(** The date 05/25/2022 is a Wednesday, but the label above it says
    Tuesday. *)
Definition mismatch_df : frame :=
  [ [Some "Role"; None];
    [None; Some "Tuesday"];
    [None; Some "05/25/2022"];
    [Some "Usher"; Some "Alice"] ].

(** The date sits in the first row of the frame. *)
Definition row0_df : frame :=
  [ [None; Some "05/25/2022"];
    [Some "Usher"; Some "Alice"] ].

(** The entry's role, "Greeter", has no [role_info]. *)
Definition unknown_role_df : frame :=
  [ [Some "Role"; None];
    [None; Some "Wednesday"];
    [None; Some "05/25/2022"];
    [Some "Greeter"; Some "Alice"] ].

(** The coordinates of the cells [get_events_from_df] treats as entries, in
    the order of [stack_isin]. *)
Definition matched_cells (al : list string) (df : frame) : list (Z * Z) :=
  map fst (filter snd (stack_isin al df)).

(** The entries of all sheets, each tagged with its sheet's position. *)
Fixpoint matched_coords_from (i : nat) (al : list string) (sheets : list (string * frame))
  : list (nat * (Z * Z)) :=
  match sheets with
  | [] => []
  | (_, df) :: rest =>
      app (map (fun rc => (i, rc)) (matched_cells al df))
          (matched_coords_from (S i) al rest)
  end.

Definition matched_coords (al : list string) (sheets : list (string * frame))
  : list (nat * (Z * Z)) :=
  matched_coords_from 0 al sheets.

(** [ev] is the event of the entry at [x] = (sheet position, (row, column)),
    built from some reading of the clock on. *)
Definition grid_event_at (cfg : config) (clk : clock_src) (sheets : list (string * frame))
  (x : nat * (Z * Z)) (ev : event) : Prop :=
  exists name df n n', nth_error sheets (fst x) = Some (name, df) /\
    event_for_match cfg clk n df (fst (snd x)) (snd (snd x)) = Ok (ev, n').

(** [t] is the time of day [read_time] gives for [s]: the time [s] denotes,
    or, for ["now"]/["today"], that of a reading of the clock. *)
Definition time_read (clk : clock_src) (s : string) (t : Z) : Prop :=
  to_datetime_IMp s = Some (PVal t) \/
  (to_datetime_IMp s = Some PNow /\ exists i, t = now_seconds (clk i)).

(** [date] is the day of the parsed date [p]: the date it denotes, or, for
    ["now"]/["today"], the day of a reading of the clock. *)
Definition date_read (clk : clock_src) (p : parsed Z) (date : Z) : Prop :=
  p = PVal date \/ (p = PNow /\ exists i, date = now_day (clk i)).

(** The role's times are reversed and its title is empty. *)
Definition reversed_cfg : config :=
  {| aliases := ["Alice"];
     role_infos := [("Usher", mk_role_info "" "Main hall" "05:00 PM" "09:00 AM")];
     recurring_schedules := [] |}.

(** The event with its description replaced. *)
Definition with_description (s : string) (ev : event) : event :=
  {| title := title ev; location := location ev; description := s;
     start_datetime := start_datetime ev; end_datetime := end_datetime ev;
     recurrence := recurrence ev |}.

(** The events with their descriptions stamped by the readings of the
    clock from the [n]-th on, one reading per event. *)
Fixpoint restamp (clk : clock_src) (n : nat) (evs : list event) : list event :=
  match evs with
  | [] => []
  | ev :: rest => with_description (make_description (clk n)) ev :: restamp clk (S n) rest
  end.

Definition gen_restamp (clk : clock_src) (n : nat) (g : gen event) : gen event :=
  (restamp clk n (fst g), snd g).

Definition rmap {A B} (f : A -> B) (r : result A) : result B :=
  match r with
  | Ok a => Ok (f a)
  | Err e => Err e
  end.

Definition gen_fmap {A B} (f : A -> B) (g : gen A) : gen B := (map f (fst g), snd g).

(** ["now"] and ["today"]: the texts [pd.to_datetime] reads as the current
    time. *)
Definition clock_text (s : string) : bool := String.eqb s "now" || String.eqb s "today".

(** No text the run may parse, in a sheet or in the configuration, reads
    the clock. *)
Definition no_clock_text (cfg : config) (sheets : list (string * frame)) : Prop :=
  (forall name df, In (name, df) sheets ->
     forall r c s, iloc df r c = Some s -> clock_text s = false) /\
  (forall k ri, In (k, ri) (role_infos cfg) ->
     clock_text (ri_start_time ri) = false /\ clock_text (ri_end_time ri) = false) /\
  (forall e, In e (recurring_schedules cfg) ->
     clock_text (entry_start_time e) = false /\ clock_text (entry_end_time e) = false /\
     clock_text (entry_start_date e) = false /\ clock_text (entry_end_date e) = false).

(** Row-major order of cells, and the order (sheet, row, column). *)
Definition cell_lt (a b : Z * Z) : Prop :=
  fst a < fst b \/ (fst a = fst b /\ snd a < snd b).

Definition coord_lt (a b : nat * (Z * Z)) : Prop :=
  (fst a < fst b)%nat \/ (fst a = fst b /\ cell_lt (snd a) (snd b)).


(** * The configuration file and the calendar side of [main]

    [get_cfg] reads the YAML file and adds two paths; [main] then finds or
    creates the calendar ([get_calendar]), adds one insert request per event
    to a batch ([create_event]) and executes the batch.  The Calendar service
    is a store of calendars and of inserted events.  Its calendar calls
    succeed, and [calendarList().list()] returns the first page of the
    store: at most [PAGE_SIZE] calendars, in store order.  The requests of
    the batch are answered one by one: the server may reject some of them. *)

(** Exceptions raised outside the event generators. *)
Inductive main_error : Type :=
  (** an exception of [get_events_from_df] or [get_recurrence_events] *)
  | Gen_error (e : error)
  (** [KeyError] of [cfg[key]] (or [cfg["source"][key]]) *)
  | KeyError_cfg (key : string)
  (** [TypeError] of [os.path.join] on [None] or on a non-string *)
  | TypeError_join
  (** [open] or [yaml.safe_load] raising on the configuration file *)
  | OSError_load (path : string)
  (** [BatchError] of [BatchHttpRequest.add] past [MAX_BATCH_LIMIT] *)
  | BatchError.

Inductive mresult (A : Type) : Type :=
  | MOk (a : A)
  | MErr (e : main_error).
Arguments MOk {A} a.
Arguments MErr {A} e.

(** [os.path.join(a, b)] ([posixpath.join]) on two strings. *)
Definition ends_with_slash (s : string) : bool :=
  match rev (list_ascii_of_string s) with
  | a :: _ => Ascii.eqb a "/"%char
  | [] => false
  end.

Definition path_join (a b : string) : string :=
  if String.prefix "/" b then b
  else if String.eqb a "" || ends_with_slash a then a ++ b
  else a ++ "/" ++ b.

(** A value of the YAML mapping: a string, or any other value. *)
Inductive yaml : Type :=
  | YStr (s : string)
  | YOther.

(** A Python dict with string keys, in insertion order. *)
Definition ydict : Type := list (string * yaml).

(** [d.get(k)] *)
Fixpoint dict_get (d : ydict) (k : string) : option yaml :=
  match d with
  | [] => None
  | (k', v) :: t => if String.eqb k' k then Some v else dict_get t k
  end.

(** [d[k] = v]: an existing key keeps its place, a new one goes last. *)
Fixpoint dict_set (d : ydict) (k : string) (v : yaml) : ydict :=
  match d with
  | [] => [(k, v)]
  | (k', v') :: t => if String.eqb k' k then (k', v) :: t else (k', v') :: dict_set t k v
  end.

Definition CFG_NAME : string := "cfg.yml".

(** [os.path.join(DEF_PATH, cfg[k])] *)
Definition join_key (dp : string) (cfg : ydict) (k : string) : mresult string :=
  match dict_get cfg k with
  | None => MErr (KeyError_cfg k)
  | Some (YStr s) => MOk (path_join dp s)
  | Some YOther => MErr TypeError_join
  end.

(** [get_cfg()]: [def_path] is [os.environ.get("LALITHA_PATH")]; [load p] is
    [yaml.safe_load(open(p))] for a file holding a mapping, [None] when the
    file cannot be opened or parsed. *)
Definition get_cfg (def_path : option string) (load : string -> option ydict)
  : mresult ydict :=
  match def_path with
  | None => MErr TypeError_join
  | Some dp =>
      match load (path_join dp CFG_NAME) with
      | None => MErr (OSError_load (path_join dp CFG_NAME))
      | Some cfg =>
          match join_key dp cfg "token_name" with
          | MErr e => MErr e
          | MOk tp =>
              let cfg := dict_set cfg "token_path" (YStr tp) in
              match join_key dp cfg "cred_name" with
              | MErr e => MErr e
              | MOk cp => MOk (dict_set cfg "cred_path" (YStr cp))
              end
          end
      end
  end.

(** The keys of [cfg] read by [get_calendar] and [create_event]; [None] is
    a missing key. *)
Record source_info : Type := mk_source {
  src_title : option string;
  src_url : option string
}.

Record api_config : Type := mk_api_config {
  creator_name : option string;
  source : option source_info;
  timezone : option string;
  calendar_name : option string
}.

Record calendar : Type := mk_calendar {
  cal_summary : string;
  cal_id : string;
  cal_tz : string
}.

(** The [body] dict of [create_event]; [body_recurrence] is the
    ["recurrence"] key, present only when the event has one. *)
Record body : Type := mk_body {
  body_creator : string;
  body_source_title : string;
  body_source_url : string;
  body_summary : string;
  body_location : string;
  body_description : string;
  body_start : string;
  body_start_tz : string;
  body_end : string;
  body_end_tz : string;
  body_recurrence : option string
}.

(** An insert request: the calendar id and the body. *)
Definition request : Type := (string * body)%type.

Record service : Type := mk_service {
  calendars : list calendar;
  events_store : list request;
  stdout : list string
}.

Definition PAGE_SIZE : nat := 100.

(** [print(s)] *)
Definition print (sv : service) (s : string) : service :=
  {| calendars := calendars sv; events_store := events_store sv;
     stdout := app (stdout sv) [s] |}.

(** [service.calendars().insert(body=calendar).execute()] *)
Definition add_calendar (sv : service) (c : calendar) : service :=
  {| calendars := app (calendars sv) [c]; events_store := events_store sv;
     stdout := stdout sv |}.

(** [get_calendar(cfg, service)]; the service names a new calendar
    [new_id cals], where [cals] are the calendars before the insert. *)
Definition get_calendar (new_id : list calendar -> string) (ac : api_config) (sv : service)
  : mresult string * service :=
  let sv := print sv "Getting list of calendars" in
  let cals := firstn PAGE_SIZE (calendars sv) in
  let sv := match cals with [] => print sv "No calendars found." | _ => sv end in
  match calendar_name ac with
  | None => (MErr (KeyError_cfg "calendar_name"), sv)
  | Some name =>
      match find (fun c => String.eqb (cal_summary c) name) cals with
      | Some c =>
          (MOk (cal_id c), print sv ("Found calendar: " ++ cal_summary c ++ " - " ++ cal_id c))
      | None =>
          let sv := print sv ("Calendar not found, creating new calendar: " ++ name) in
          match timezone ac with
          | None => (MErr (KeyError_cfg "timezone"), sv)
          | Some tz =>
              let c := mk_calendar name (new_id (calendars sv)) tz in
              (MOk (cal_id c),
               print (add_calendar sv c)
                 ("Created calendar: " ++ cal_summary c ++ " - " ++ cal_id c))
          end
      end
  end.

(** The [body] dict of [create_event], its values read left to right. *)
Definition create_body (ac : api_config) (ev : event) : mresult body :=
  match creator_name ac with
  | None => MErr (KeyError_cfg "creator_name")
  | Some cn =>
      match source ac with
      | None => MErr (KeyError_cfg "source")
      | Some src =>
          match src_title src with
          | None => MErr (KeyError_cfg "title")
          | Some st =>
              match src_url src with
              | None => MErr (KeyError_cfg "url")
              | Some su =>
                  match timezone ac with
                  | None => MErr (KeyError_cfg "timezone")
                  | Some tz =>
                      MOk {| body_creator := cn; body_source_title := st;
                             body_source_url := su; body_summary := title ev;
                             body_location := location ev;
                             body_description := description ev;
                             body_start := start_datetime ev; body_start_tz := tz;
                             body_end := end_datetime ev; body_end_tz := tz;
                             body_recurrence := recurrence ev |}
                  end
              end
          end
      end
  end.

(** [googleapiclient.http.MAX_BATCH_LIMIT] *)
Definition MAX_BATCH_LIMIT : nat := 1000.

(** [batch.add(request)]: the batch holds its requests in order. *)
Definition batch_add (b : list request) (r : request) : mresult (list request) :=
  if (MAX_BATCH_LIMIT <=? length b)%nat then MErr BatchError else MOk (app b [r]).

(** [create_event(cfg, service, batch, calendar_id, event)] *)
Definition create_event (ac : api_config) (cid : string) (ev : event) (b : list request)
  : mresult (list request) :=
  match create_body ac ev with
  | MOk bd => batch_add b (cid, bd)
  | MErr e => MErr e
  end.

Fixpoint add_events (ac : api_config) (cid : string) (evs : list event) (b : list request)
  : mresult (list request) :=
  match evs with
  | [] => MOk b
  | ev :: rest =>
      match create_event ac cid ev b with
      | MOk b' => add_events ac cid rest b'
      | MErr e => MErr e
      end
  end.

(** [for event in g: create_event(...)]: the events [g] yields are added in
    turn; the exception that stops [g] is raised after them. *)
Definition add_gen (ac : api_config) (cid : string) (g : gen event) (b : list request)
  : mresult (list request) :=
  match add_events ac cid (fst g) b with
  | MOk b' =>
      match snd g with
      | None => MOk b'
      | Some e => MErr (Gen_error e)
      end
  | MErr e => MErr e
  end.

(** The requests of [b], the [i]-th first, the server accepts: [resp i]
    is its answer to the [i]-th. *)
Fixpoint accepted (resp : nat -> bool) (i : nat) (b : list request) : list request :=
  match b with
  | [] => []
  | r :: rest => if resp i then r :: accepted resp (S i) rest else accepted resp (S i) rest
  end.

(** [batch.execute()]: the server runs the parts of the batch in an order
    of its own; a rejected part's [HttpError] is passed to the part's
    callback, and [main] registers none, so it is dropped.  The store is a
    bag: the order of [events_store] carries no meaning. *)
Definition execute (resp : nat -> bool) (b : list request) (sv : service) : service :=
  {| calendars := calendars sv; events_store := app (events_store sv) (accepted resp 0 b);
     stdout := stdout sv |}.

(** [main()] from [get_calendar] on: [cfg] and [ac] are the keys of the
    configuration it reads, [sheets] the result of [get_sheets], [resp] the
    server's answers to the parts of the batch. *)
Definition main_run (new_id : list calendar -> string) (ac : api_config) (cfg : config)
  (clk : clock_src) (sheets : list (string * frame)) (resp : nat -> bool) (sv : service)
  : mresult unit * service :=
  match get_calendar new_id ac sv with
  | (MErr e, sv1) => (MErr e, sv1)
  | (MOk cid, sv1) =>
      let (g1, n) := get_events_from_df cfg clk sheets 0 in
      match add_gen ac cid g1 [] with
      | MErr e => (MErr e, sv1)
      | MOk b =>
          match add_gen ac cid (fst (get_recurrence_events cfg clk n)) b with
          | MErr e => (MErr e, sv1)
          | MOk b' => (MOk tt, execute resp b' sv1)
          end
      end
  end.

(** ** Sample inputs of the calendar side *)

Definition sample_api : api_config :=
  mk_api_config (Some "Lalitha")
    (Some (mk_source (Some "Schedule") (Some "https://example.org/schedule")))
    (Some "America/New_York") (Some "Volunteering").

(** The service names the n-th calendar "calNN". *)
Definition sample_new_id (cals : list calendar) : string :=
  "cal" ++ fmt_2 (Z.of_nat (length cals)).

Definition sample_service : service :=
  mk_service [mk_calendar "Personal" "cal00" "UTC"] [] [].

(** An alias in the first row: no row above it to hold a date. *)
Definition alias_row0_df : frame :=
  [ [Some "Usher"; Some "Alice"];
    [None; Some "05/25/2022"] ].

(** No cell holds an alias. *)
Definition no_alias_df : frame :=
  [ [Some "Role"; Some "Wednesday"];
    [None; Some "05/25/2022"];
    [Some "Usher"; Some "Bob"] ].

(** 1001 recurring schedules. *)
Definition many_cfg : config :=
  mk_config ["Alice"] []
    (repeat (mk_entry "Choir" "Room 2" ["Monday"; "Wednesday"] "06:00 PM" "07:00 PM"
                      "05/02/2022" "12/31/2022") 1001).

(** A configuration file with relative and absolute names. *)
Definition sample_yaml : ydict :=
  [ ("file_name", YStr "schedule.xlsx");
    ("token_name", YStr "token.json");
    ("cred_name", YStr "/etc/lalitha/credentials.json") ].

Definition sample_load (p : string) : option ydict :=
  if String.eqb p "/home/lalitha/cfg.yml" then Some sample_yaml else None.

(** ** Definitions used by the properties of the calendar side *)

(** [r] is the insert request [create_event] adds for [ev]. *)
Definition req_of (ac : api_config) (cid : string) (ev : event) (r : request) : Prop :=
  exists bd, create_body ac ev = MOk bd /\ r = (cid, bd).

(** The time part of [strftime_now]: ["%I:%M %p"]. *)
Definition stamp_time (hour minute : Z) : string :=
  let h12 := if hour mod 12 =? 0 then 12 else hour mod 12 in
  fmt_2 h12 ++ ":" ++ fmt_2 minute ++ " " ++ (if hour <? 12 then "AM" else "PM").

Definition stamp_time_check : bool :=
  forallb (fun h =>
    forallb (fun mi =>
      match to_datetime_IMp (stamp_time (Z.of_nat h) (Z.of_nat mi)) with
      | Some (PVal t) => t =? Z.of_nat h * 3600 + Z.of_nat mi * 60
      | _ => false
      end) (seq 0 60)) (seq 0 24).

(** * Examples *)

Example to_datetime_mdY_ex : option_map strftime_Ymd_dash (strptime_mdY "05/25/2022") = Some "2022-05-25".
Proof. reflexivity. Qed.
Example strftime_A_ex : option_map strftime_A (strptime_mdY "5/25/2022") = Some "Wednesday".
Proof. reflexivity. Qed.
Example to_time_ex : option_map strftime_HMS (strptime_IMp "09:05 pm") = Some "21:05:00".
Proof. reflexivity. Qed.
Example to_datetime_special_ex :
  map to_datetime_mdY [""; "NaT"; "nan"; "today"; "now"; "05/25/2022"; "notes"] =
  [Some PNaT; Some PNaT; Some PNaT; Some PNow; Some PNow; Some (PVal 19137); None].
Proof. reflexivity. Qed.
Example now_ex : strftime_now (clock_at 19140 0 7) = "05/28/2022 at 12:07 AM".
Proof. reflexivity. Qed.

Example sample_main :
  main_events sample_cfg sample_clk [("Sheet1", sample_df)] =
  Ok [ {| title := "Ushering"; location := "Main hall";
          description := make_description sample_now;
          start_datetime := "2022-05-25T09:00:00";
          end_datetime := "2022-05-25T11:30:00"; recurrence := None |};
       {| title := "Choir"; location := "Room 2";
          description := make_description sample_now;
          start_datetime := "2022-05-02T18:00:00";
          end_datetime := "2022-05-02T19:00:00";
          recurrence := Some "RRULE:FREQ=WEEKLY;BYDAY=MO,WE;UNTIL=20221231" |} ].
Proof. vm_compute. reflexivity. Qed.

(** * Properties *)

Lemma get_cell_in_range (df : frame) (c r : Z) :
  0 <= r < Z.of_nat (length df) ->
  exists x, get_cell df c r = Ok x.
Proof.
  intros Hr. unfold get_cell.
  destruct (r <? 0) eqn:E; [lia|].
  destruct (nth_error df (Z.to_nat r)) eqn:Hn.
  - eauto.
  - apply nth_error_None in Hn. lia.
Qed.





Lemma to_datetime_cases {A} (strptime : string -> option A) (s : string) :
  strptime "" = None -> Forall (fun t => strptime t = None) nat_strings ->
  strptime "now" = None -> strptime "today" = None ->
  (to_datetime strptime s = Some PNaT <-> s = "" \/ In s nat_strings) /\
  (to_datetime strptime s = Some PNow <-> s = "now" \/ s = "today") /\
  (forall a, to_datetime strptime s = Some (PVal a) <-> strptime s = Some a).
Proof.
  intros He Hn Hnow Htoday. unfold to_datetime.
  destruct (String.eqb s "" || existsb (String.eqb s) nat_strings) eqn:E1.
  - apply orb_true_iff in E1.
    assert (Hs : s = "" \/ In s nat_strings).
    { destruct E1 as [E|E].
      - left. apply String.eqb_eq. exact E.
      - right. apply existsb_exists in E. destruct E as (t & Ht & Et).
        apply String.eqb_eq in Et. subst. exact Ht. }
    assert (Hp : strptime s = None).
    { destruct Hs as [->|Hs]; [exact He|]. rewrite Forall_forall in Hn. auto. }
    split; [|split].
    + split; auto.
    + split; [discriminate|]. intros [-> | ->]; vm_compute in Hs; intuition discriminate.
    + intros a. rewrite Hp. split; discriminate.
  - apply orb_false_iff in E1. destruct E1 as [E1 E2].
    assert (Hs : ~ (s = "" \/ In s nat_strings)).
    { intros [->|Hs]; [discriminate|].
      assert (Ex : existsb (String.eqb s) nat_strings = true).
      { apply existsb_exists. exists s. split; [exact Hs | apply String.eqb_refl]. }
      congruence. }
    destruct (String.eqb s "now" || String.eqb s "today") eqn:E3.
    + apply orb_true_iff in E3.
      assert (Ht : s = "now" \/ s = "today").
      { destruct E3 as [E|E]; apply String.eqb_eq in E; auto. }
      assert (Hp : strptime s = None) by (destruct Ht as [-> | ->]; assumption).
      split; [|split].
      * split; [discriminate|]. intros H. contradiction.
      * split; auto.
      * intros a. rewrite Hp. split; discriminate.
    + apply orb_false_iff in E3. destruct E3 as [E3 E4].
      assert (Ht : ~ (s = "now" \/ s = "today")).
      { intros [-> | ->]; discriminate. }
      destruct (strptime s) as [a|] eqn:Hp.
      * split; [|split].
        -- split; [discriminate|]. intros H. contradiction.
        -- split; [discriminate|]. intros H. contradiction.
        -- intros a'. split; intros H; inversion H; reflexivity.
      * split; [|split].
        -- split; [discriminate|]. intros H. contradiction.
        -- split; [discriminate|]. intros H. contradiction.
        -- intros a'. split; discriminate.
Qed.

Lemma to_datetime_mdY_cases (s : string) :
  (to_datetime_mdY s = Some PNaT <-> s = "" \/ In s nat_strings) /\
  (to_datetime_mdY s = Some PNow <-> s = "now" \/ s = "today") /\
  (forall dn, to_datetime_mdY s = Some (PVal dn) <-> strptime_mdY s = Some dn).
Proof.
  apply to_datetime_cases; try reflexivity.
  repeat constructor.
Qed.

Lemma to_datetime_IMp_cases (s : string) :
  (to_datetime_IMp s = Some PNaT <-> s = "" \/ In s nat_strings) /\
  (to_datetime_IMp s = Some PNow <-> s = "now" \/ s = "today") /\
  (forall t, to_datetime_IMp s = Some (PVal t) <-> strptime_IMp s = Some t).
Proof.
  apply to_datetime_cases; try reflexivity.
  repeat constructor.
Qed.

Lemma get_cell_ok_range (df : frame) (c r : Z) (x : cell) :
  get_cell df c r = Ok x -> 0 <= r < Z.of_nat (length df).
Proof.
  unfold get_cell. destruct (r <? 0) eqn:E; [discriminate|].
  destruct (nth_error df (Z.to_nat r)) eqn:Hn; [|discriminate].
  intros _. apply Z.ltb_ge in E.
  assert (Z.to_nat r < length df)%nat by (apply nth_error_Some; congruence). lia.
Qed.

(** ** C1 *)



(** ** C2 *)

Lemma strftime_A_nth (d : Z) (i : nat) :
  (i < 7)%nat -> (d + 3) mod 7 = Z.of_nat i -> strftime_A d = nth i weekday_names EmptyString.
Proof.
  intros Hi Hd. unfold strftime_A, weekday_index. rewrite Hd, Nat2Z.id. reflexivity.
Qed.

(** Every weekday name is the name of one of any seven consecutive days. *)
Lemma weekday_within_week (d : Z) (w : string) :
  In w weekday_names -> exists k, 0 <= k <= 6 /\ strftime_A (d + k) = w.
Proof.
  intros Hw.
  destruct (In_nth _ _ EmptyString Hw) as [i [Hi Hn]]. simpl in Hi.
  exists ((Z.of_nat i - (d + 3)) mod 7).
  split; [pose proof (Z.mod_pos_bound (Z.of_nat i - (d + 3)) 7); lia|].
  rewrite <- Hn. apply strftime_A_nth; [exact Hi|].
  replace (d + (Z.of_nat i - (d + 3)) mod 7 + 3) with
    ((Z.of_nat i - (d + 3)) mod 7 + (d + 3)) by ring.
  rewrite Z.add_mod_idemp_l by lia.
  replace (Z.of_nat i - (d + 3) + (d + 3)) with (Z.of_nat i) by ring.
  apply Z.mod_small. lia.
Qed.

Lemma last_day_0 : last_day 0 = max_day.
Proof. reflexivity. Qed.

Lemma advance_finds (last : Z) (days : list string) (n : nat) :
  forall fuel d,
  (n <= fuel)%nat -> d + Z.of_nat n <= last ->
  day_in days (d + Z.of_nat n) = true ->
  exists k, 0 <= k <= Z.of_nat n /\ advance_until last fuel days d = Ok (d + k) /\
    day_in days (d + k) = true /\
    (forall j, 0 <= j < k -> day_in days (d + j) = false).
Proof.
  induction n as [|n IH]; intros fuel d Hf Hb Hin.
  - exists 0. rewrite Z.add_0_r in *.
    destruct fuel; simpl; unfold day_in in Hin; rewrite Hin;
      (split; [lia | split; [reflexivity | split; [exact Hin | intros; lia]]]).
  - destruct (day_in days d) eqn:Hd.
    + exists 0. rewrite Z.add_0_r.
      destruct fuel; simpl; unfold day_in in Hd; rewrite Hd;
        (split; [lia | split; [reflexivity | split; [exact Hd | intros; lia]]]).
    + destruct fuel as [|fuel]; [lia|].
      destruct (IH fuel (d + 1) ltac:(lia) ltac:(lia)) as [k (Hk & Ha & Hh & Hmin)].
      { rewrite <- Hin. f_equal. lia. }
      exists (k + 1). split; [lia|]. split; [|split].
      * simpl. unfold day_in in Hd. rewrite Hd.
        replace (last <? d + 1) with false by (symmetry; apply Z.ltb_ge; lia).
        rewrite Ha. f_equal. ring.
      * rewrite <- Hh. f_equal. ring.
      * intros j Hj. destruct (Z.eq_dec j 0) as [->|Hj0].
        -- rewrite Z.add_0_r. exact Hd.
        -- replace (d + j) with (d + 1 + (j - 1)) by ring. apply Hmin. lia.
Qed.

Lemma advance_no_day (last : Z) (days : list string) :
  (forall d, day_in days d = false) ->
  forall fuel d, advance_until last fuel days d = Err OutOfBoundsDatetime.
Proof.
  intros Hno fuel. induction fuel as [|fuel IH]; intros d; simpl;
    pose proof (Hno d) as Hd; unfold day_in in Hd; rewrite Hd; [reflexivity|].
  destruct (last <? d + 1); [reflexivity | apply IH].
Qed.

Lemma day_in_weekday (days : list string) (d : Z) :
  day_in days d = true -> exists w, In w weekday_names /\ In w days.
Proof.
  unfold day_in. intros H. apply existsb_exists in H as [w [Hw Heq]].
  apply String.eqb_eq in Heq. subst w. exists (strftime_A d). split; [|exact Hw].
  unfold strftime_A, weekday_index.
  pose proof (Z.mod_pos_bound (d + 3) 7 ltac:(lia)).
  apply nth_In. simpl. lia.
Qed.

Lemma advance_steps_no_day (days : list string) :
  (forall d, day_in days d = false) ->
  forall n d, Z.of_nat n = max_day - d ->
  advance_steps (S n) days d = S n.
Proof.
  intros Hno n. induction n as [|n IH]; intros d Hd; simpl; rewrite (Hno d).
  - replace (max_day <? d + 1) with true by (symmetry; apply Z.ltb_lt; lia). reflexivity.
  - replace (max_day <? d + 1) with false by (symmetry; apply Z.ltb_ge; lia).
    f_equal. apply IH. lia.
Qed.

Lemma day_in_In (days : list string) (d : Z) :
  day_in days d = true <-> In (strftime_A d) days.
Proof.
  unfold day_in. rewrite existsb_exists. split.
  - intros [w [Hw Heq]]. apply String.eqb_eq in Heq. subst. exact Hw.
  - intros H. exists (strftime_A d). split; [exact H | apply String.eqb_refl].
Qed.

Lemma advance_min_unique (days : list string) (d k1 k2 : Z) :
  0 <= k1 -> 0 <= k2 ->
  day_in days (d + k1) = true -> day_in days (d + k2) = true ->
  (forall j, 0 <= j < k1 -> day_in days (d + j) = false) ->
  (forall j, 0 <= j < k2 -> day_in days (d + j) = false) ->
  k1 = k2.
Proof.
  intros H1 H2 Hh1 Hh2 Hm1 Hm2.
  destruct (Z.lt_trichotomy k1 k2) as [Hlt|[Heq|Hgt]]; auto.
  - rewrite Hm2 in Hh1; [discriminate | lia].
  - rewrite Hm1 in Hh2; [discriminate | lia].
Qed.

(** Claim C2, as the code has it: when [days] names at least one weekday
    (and the start date is at least six days before the last representable
    timestamp), the loop stops after at most six advances, at the first date
    on or after the start date whose weekday name is in [days].  When [days]
    names no weekday, in particular when it is empty, nothing rejects the
    entry: the loop advances one day at a time through every date up to
    2262-04-11 and the advance past it raises [OutOfBoundsDatetime]. *)
Theorem first_date_loop_week (days : list string) (start : Z) :
  start + 6 <= max_day ->
  ((exists w, In w weekday_names /\ In w days) ->
     exists k, 0 <= k <= 6 /\
       first_date_loop days start = Ok (start + k) /\
       advance 6 days start = Ok (start + k) /\
       In (strftime_A (start + k)) days /\
       (forall j, 0 <= j < k -> ~ In (strftime_A (start + j)) days)) /\
  (~ (exists w, In w weekday_names /\ In w days) ->
     first_date_loop days start = Err OutOfBoundsDatetime /\
     advance_steps (S (Z.to_nat (max_day - start))) days start
       = S (Z.to_nat (max_day - start))).
Proof.
  intros Hb. unfold first_date_loop, first_date_loop_at, advance. rewrite last_day_0. split.
  - intros [w [Hw Hwd]].
    destruct (weekday_within_week start w Hw) as [k0 [Hk0 Hname]].
    assert (Hin : day_in days (start + Z.of_nat (Z.to_nat k0)) = true).
    { apply day_in_In. rewrite Z2Nat.id by lia. rewrite Hname. exact Hwd. }
    destruct (advance_finds max_day days (Z.to_nat k0) (S (Z.to_nat (max_day - start))) start
                ltac:(lia) ltac:(lia) Hin) as [k1 (Hk1 & Ha1 & Hh1 & Hm1)].
    destruct (advance_finds max_day days (Z.to_nat k0) 6 start
                ltac:(lia) ltac:(lia) Hin) as [k2 (Hk2 & Ha2 & Hh2 & Hm2)].
    assert (k1 = k2) as <- by (apply (advance_min_unique days start); auto; lia).
    exists k1. split; [lia|]. split; [exact Ha1|]. split; [exact Ha2|].
    split; [apply day_in_In; exact Hh1|].
    intros j Hj Hjin. apply day_in_In in Hjin. rewrite Hm1 in Hjin; [discriminate | exact Hj].
  - intros Hno.
    assert (Hnd : forall d, day_in days d = false).
    { intros d. destruct (day_in days d) eqn:E; [|reflexivity].
      exfalso. apply Hno. exact (day_in_weekday days d E). }
    split.
    + apply advance_no_day. exact Hnd.
    + apply advance_steps_no_day; [exact Hnd | lia].
Qed.

Lemma first_date_loop_week_witness :
  (19114 + 6 <= max_day) /\
  exists k, 0 <= k <= 6 /\
    first_date_loop ["Wednesday"; "Friday"] 19114 = Ok (19114 + k).
Proof.
  split; [vm_compute; discriminate|].
  destruct (proj1 (first_date_loop_week ["Wednesday"; "Friday"] 19114
                     ltac:(vm_compute; discriminate))) as [k (Hk & H1 & _)].
  { exists "Wednesday". split; simpl; auto 6. }
  exists k. split; [exact Hk | exact H1].
Defined.

(** The spec's example: from Monday 2022-05-02 with Wednesday and Friday,
    the first date is Wednesday 2022-05-04. *)
Example first_date_spec_example :
  to_datetime_mdY "05/02/2022" = Some (PVal 19114) /\ strftime_A 19114 = "Monday" /\
  first_date_loop ["Wednesday"; "Friday"] 19114 = Ok 19116 /\
  strftime_Ymd_dash 19116 = "2022-05-04".
Proof. vm_compute. repeat split. Qed.

(** Claim C2 fails: an entry with no days is not rejected; its loop runs
    87,638 advances, far beyond seven, and stops only when the timestamp
    overflows. *)
Lemma first_date_empty_days_cex :
  recurrence_event sample_clk 0 empty_days_entry = Err OutOfBoundsDatetime /\
  Z.of_nat (advance_steps (S (Z.to_nat (max_day - 19114))) [] 19114) = 87638.
Proof. split; vm_compute; reflexivity. Qed.

(** ** Dates: printing a parsed date gives back its fields *)

Lemma yoe_inv (yoe doy : Z) :
  0 <= yoe <= 399 -> 0 <= doy <= 365 ->
  (doy = 365 -> (yoe + 1) mod 4 = 0 /\ ((yoe + 1) mod 100 <> 0 \/ yoe = 399)) ->
  let doe := yoe * 365 + yoe / 4 - yoe / 100 + doy in
  (doe - doe / 1460 + doe / 36524 - doe / 146096) / 365 = yoe.
Proof.
  intros H1 H2 H3 doe. subst doe.
  Z.to_euclidean_division_equations. lia.
Qed.

Lemma days_in_month_le (y m : Z) : days_in_month y m <= mlen m.
Proof. unfold days_in_month, mlen. destruct (m =? 2); [destruct (is_leap y)|]; lia. Qed.

Lemma feb29_leap (y d : Z) : d <= days_in_month y 2 -> d = 29 ->
  y mod 4 = 0 /\ (y mod 100 <> 0 \/ y mod 400 = 0).
Proof.
  unfold days_in_month. simpl. unfold is_leap.
  destruct (y mod 4 =? 0) eqn:E1; simpl; [|lia].
  destruct (y mod 100 =? 0) eqn:E2; simpl;
  [destruct (y mod 400 =? 0) eqn:E3; simpl; [|lia]|]; intros; 
  repeat match goal with H : (_ =? _) = _ |- _ => first [apply Z.eqb_eq in H | apply Z.eqb_neq in H] end; lia.
Qed.

Lemma month_inv (m d : Z) :
  1 <= m <= 12 -> 1 <= d <= mlen m ->
  let mp := if m >? 2 then m - 3 else m + 9 in
  let doy := (153 * mp + 2) / 5 + d - 1 in
  0 <= doy <= 365 /\ (doy = 365 -> m = 2 /\ d = 29) /\
  (5 * doy + 2) / 153 = mp /\
  (if mp <? 10 then mp + 3 else mp - 9) = m /\
  (m <=? 2) = (mp >=? 10).
Proof.
  intros Hm Hd.
  assert (m = 1 \/ m = 2 \/ m = 3 \/ m = 4 \/ m = 5 \/ m = 6 \/ m = 7 \/ m = 8 \/ m = 9 \/ m = 10 \/ m = 11 \/ m = 12) as Hc by lia.
  destruct Hc as [->|[->|[->|[->|[->|[->|[->|[->|[->|[->|[->| -> ]]]]]]]]]]];
    cbv [mlen] in Hd; cbn [Z.eqb Pos.eqb orb] in Hd; cbv zeta;
    cbn [Z.leb Z.geb Z.gtb Z.ltb Z.compare Pos.compare Pos.compare_cont];
    (split; [|split; [|split; [|split; reflexivity]]]); Z.to_euclidean_division_equations; lia.
Qed.

Lemma civil_roundtrip (y m d : Z) :
  1 <= m <= 12 -> 1 <= d <= days_in_month y m ->
  civil_from_days (days_from_civil y m d) = (y, m, d).
Proof.
  intros Hm Hd.
  pose proof (days_in_month_le y m) as Hle.
  pose proof (month_inv m d Hm ltac:(lia)) as Hmi. cbv zeta in Hmi.
  destruct Hmi as (Hdoy & H365 & Hmp & Hm' & Hleb).
  unfold days_from_civil. cbv zeta.
  set (mp := if m >? 2 then m - 3 else m + 9) in *.
  set (doy := (153 * mp + 2) / 5 + d - 1) in *.
  set (y' := if m <=? 2 then y - 1 else y).
  set (era := y' / 400). set (yoe := y' - era * 400).
  assert (Hyoe : 0 <= yoe <= 399) by (unfold yoe, era; Z.to_euclidean_division_equations; lia).
  assert (Hleap : doy = 365 -> (yoe + 1) mod 4 = 0 /\ ((yoe + 1) mod 100 <> 0 \/ yoe = 399)).
  { intros E. destruct (H365 E) as [Em Ed]. rewrite Em in Hd.
    destruct (feb29_leap y d ltac:(lia) Ed) as [L1 L2].
    unfold yoe, era, y'. rewrite Em. replace (2 <=? 2) with true by reflexivity.
    Z.to_euclidean_division_equations; lia. }
  pose proof (yoe_inv yoe doy Hyoe Hdoy Hleap) as Hy. cbv zeta in Hy.
  set (doe := yoe * 365 + yoe / 4 - yoe / 100 + doy) in *.
  assert (Hdoe : 0 <= doe <= 146096) by (unfold doe; Z.to_euclidean_division_equations; lia).
  unfold civil_from_days. cbv zeta.
  replace (era * 146097 + doe - 719468 + 719468) with (era * 146097 + doe) by ring.
  replace ((era * 146097 + doe) / 146097) with era by (Z.to_euclidean_division_equations; lia).
  replace (era * 146097 + doe - era * 146097) with doe by ring.
  rewrite Hy.
  replace (doe - (365 * yoe + yoe / 4 - yoe / 100)) with doy by (unfold doe; ring).
  rewrite Hmp.
  replace (doy - (153 * mp + 2) / 5 + 1) with d by (unfold doy; ring).
  rewrite Hm'.
  f_equal. f_equal. unfold yoe, y'. destruct (m <=? 2); lia.
Qed.


Lemma within_range (lo hi : Z) (o : option Z) (v : Z) :
  within lo hi o = Some v -> lo <= v <= hi.
Proof.
  unfold within. destruct o as [x|]; [|discriminate].
  destruct ((lo <=? x) && (x <=? hi)) eqn:E; [|discriminate].
  intros H. inversion H; subst.
  apply andb_prop in E as [E1 E2]. apply Z.leb_le in E1, E2. lia.
Qed.

(** A string matched by ["%m/%d/%Y"] names a valid date, and the
    timestamp is that date's day number. *)
Lemma strptime_mdY_fields (s : string) (dn : Z) :
  strptime_mdY s = Some dn ->
  exists y m d, mdY_fields s = Some (y, m, d) /\ 1 <= m <= 12 /\
    1 <= d <= days_in_month y m /\ dn = days_from_civil y m d.
Proof.
  unfold strptime_mdY.
  destruct (mdY_fields s) as [[[y m] d]|] eqn:Hf; [|discriminate].
  destruct (d <=? days_in_month y m) eqn:Hd; [|discriminate].
  destruct (in_bounds (days_from_civil y m d)); [|discriminate].
  intros H. inversion H; subst. exists y, m, d.
  unfold mdY_fields in Hf.
  destruct (split_on "/"%char (list_ascii_of_string s)) as [|lm [|ld [|ly [|]]]];
    try discriminate.
  destruct (parse_month lm) as [m'|] eqn:Hm; [|discriminate].
  destruct (parse_day ld) as [d'|] eqn:Hd'; [|discriminate].
  destruct (parse_year ly); [|discriminate].
  inversion Hf; subst.
  apply within_range in Hm. apply within_range in Hd'. apply Z.leb_le in Hd.
  repeat split; auto; lia.
Qed.

Lemma strftime_Ymd_fields (y m d : Z) :
  1 <= m <= 12 -> 1 <= d <= days_in_month y m ->
  strftime_Ymd (days_from_civil y m d) = fmt_Y y ++ fmt_2 m ++ fmt_2 d.
Proof.
  intros Hm Hd. unfold strftime_Ymd. rewrite civil_roundtrip by assumption. reflexivity.
Qed.

Lemma strftime_Ymd_dash_fields (y m d : Z) :
  1 <= m <= 12 -> 1 <= d <= days_in_month y m ->
  strftime_Ymd_dash (days_from_civil y m d) = fmt_Y y ++ "-" ++ fmt_2 m ++ "-" ++ fmt_2 d.
Proof.
  intros Hm Hd. unfold strftime_Ymd_dash. rewrite civil_roundtrip by assumption. reflexivity.
Qed.

(** ** Readings of the clock *)

Lemma read_time_ok (clk : clock_src) (n : nat) (s : string) (t : Z) (n' : nat) :
  read_time clk n s = Ok (t, n') ->
  (to_datetime_IMp s = Some (PVal t) /\ n' = n) \/
  (to_datetime_IMp s = Some PNow /\ t = now_seconds (clk n) /\ n' = S n).
Proof.
  unfold read_time. destruct (to_datetime_IMp s) as [[a| |]|]; intros H; inversion H; subst; auto.
Qed.

Lemma read_time_le (clk : clock_src) (n : nat) (s : string) (t : Z) (n' : nat) :
  read_time clk n s = Ok (t, n') -> (n <= n')%nat.
Proof. intros H. destruct (read_time_ok clk n s t n' H) as [(_ & ->)|(_ & _ & ->)]; lia. Qed.

Lemma read_timestamp_cases (clk : clock_src) (n : nat) (p : parsed Z) (ts : timestamp) (n' : nat) :
  read_timestamp clk n p = (ts, n') ->
  (exists dn, p = PVal dn /\ ts = TS dn 0 /\ n' = n) \/
  (p = PNaT /\ ts = TNaT /\ n' = n) \/
  (p = PNow /\ ts = TS (now_day (clk n)) (now_tod (clk n)) /\ n' = S n).
Proof.
  destruct p as [dn| |]; simpl; intros H; inversion H; subst; eauto 6.
Qed.

Lemma read_timestamp_le (clk : clock_src) (n : nat) (p : parsed Z) (ts : timestamp) (n' : nat) :
  read_timestamp clk n p = (ts, n') -> (n <= n')%nat.
Proof.
  intros H. destruct (read_timestamp_cases clk n p ts n' H)
    as [(? & _ & _ & ->)|[(_ & _ & ->)|(_ & _ & ->)]]; lia.
Qed.

(** The successful run of [recurrence_event], step by step. *)
Lemma recurrence_event_ok (clk : clock_src) (n : nat) (entry : schedule_entry)
  (ev : event) (n' : nat) :
  recurrence_event clk n entry = Ok (ev, n') ->
  exists st n1 et n2 sd first_ts n3 date ed end_ts end_date,
    read_time clk (S n) (entry_start_time entry) = Ok (st, n1) /\
    read_time clk n1 (entry_end_time entry) = Ok (et, n2) /\
    to_datetime_mdY (entry_start_date entry) = Some sd /\
    read_timestamp clk n2 sd = (first_ts, n3) /\
    first_date_of (entry_days entry) first_ts = Ok date /\
    to_datetime_mdY (entry_end_date entry) = Some ed /\
    read_timestamp clk n3 ed = (end_ts, n') /\
    strftime_Ymd_ts end_ts = Ok end_date /\
    ev = {| title := entry_title entry;
            location := entry_location entry;
            description := make_description (clk n);
            start_datetime := strftime_iso (combine date st);
            end_datetime := strftime_iso (combine date et);
            recurrence := Some (rrule (entry_days entry) end_date) |}.
Proof.
  unfold recurrence_event.
  destruct (read_time clk (S n) (entry_start_time entry)) as [[st n1]|] eqn:H1; [|discriminate]. simpl.
  destruct (read_time clk n1 (entry_end_time entry)) as [[et n2]|] eqn:H2; [|discriminate]. simpl.
  destruct (to_datetime_mdY (entry_start_date entry)) as [sd|] eqn:H3; [|discriminate]. simpl.
  destruct (read_timestamp clk n2 sd) as [first_ts n3] eqn:H4.
  destruct (first_date_of (entry_days entry) first_ts) as [date|] eqn:H5; [|discriminate]. simpl.
  destruct (to_datetime_mdY (entry_end_date entry)) as [ed|] eqn:H6; [|discriminate]. simpl.
  destruct (read_timestamp clk n3 ed) as [end_ts n4] eqn:H7.
  destruct (strftime_Ymd_ts end_ts) as [end_date|] eqn:H8; [|discriminate]. simpl.
  intros H. inversion H; subst.
  exists st, n1, et, n2, sd, first_ts, n3, date, ed, end_ts, end_date.
  repeat split; assumption.
Qed.

(** ** C4 *)

(** Claim C4, as the code has it: the recurrence rule of every event
    [get_recurrence_events] yields is exactly
    ["RRULE:FREQ=WEEKLY;BYDAY=" D1,D2,... ";UNTIL=" YYYYMMDD], where the
    [Di] are the upper-cased two-letter prefixes of the entries of [days]
    in their configured order.  [YYYYMMDD] prints the year, month and day
    read from [end_date] by ["%m/%d/%Y"]; but an [end_date] of ["now"] or
    ["today"] is accepted too, and then [YYYYMMDD] is the day of the clock
    reading it makes, a later reading than that of the description. *)
Theorem recurrence_rule_shape (clk : clock_src) (n : nat) (entry : schedule_entry)
  (ev : event) (n' : nat) :
  recurrence_event clk n entry = Ok (ev, n') ->
  exists until,
    recurrence ev =
      Some ("RRULE:FREQ=WEEKLY;BYDAY="
            ++ join "," (map (fun x => str_upper (prefix2 x)) (entry_days entry))
            ++ ";UNTIL=" ++ until) /\
    ((exists y m d, mdY_fields (entry_end_date entry) = Some (y, m, d) /\
        until = fmt_Y y ++ fmt_2 m ++ fmt_2 d) \/
     ((entry_end_date entry = "now" \/ entry_end_date entry = "today") /\
        exists i, (n < i)%nat /\ n' = S i /\ until = strftime_Ymd (now_day (clk i)))).
Proof.
  intros H.
  destruct (recurrence_event_ok clk n entry ev n' H)
    as (st & n1 & et & n2 & sd & first_ts & n3 & date & ed & end_ts & end_date &
        H1 & H2 & _ & H4 & _ & H6 & H7 & H8 & ->).
  exists end_date. split; [reflexivity|].
  pose proof (read_time_le _ _ _ _ _ H1). pose proof (read_time_le _ _ _ _ _ H2).
  pose proof (read_timestamp_le _ _ _ _ _ H4).
  destruct (read_timestamp_cases clk n3 ed end_ts n' H7)
    as [(dn & -> & -> & ->)|[(-> & -> & ->)|(-> & -> & ->)]].
  - left. apply to_datetime_mdY_cases in H6.
    destruct (strptime_mdY_fields _ _ H6) as (y & m & d & Hf & Hm & Hd & ->).
    exists y, m, d. split; [exact Hf|].
    simpl in H8. inversion H8. apply strftime_Ymd_fields; assumption.
  - discriminate.
  - right. split; [apply to_datetime_mdY_cases; exact H6|].
    exists n3. split; [lia|]. split; [reflexivity|].
    simpl in H8. inversion H8. reflexivity.
Qed.

Lemma recurrence_rule_shape_witness :
  recurrence_event sample_clk 0 spec_rrule_entry =
    Ok ({| title := "Choir"; location := "Room 2";
           description := make_description sample_now;
           start_datetime := "2022-05-02T18:00:00";
           end_datetime := "2022-05-02T19:00:00";
           recurrence := Some "RRULE:FREQ=WEEKLY;BYDAY=MO,WE;UNTIL=20221231" |}, 1%nat) /\
  exists until,
    Some "RRULE:FREQ=WEEKLY;BYDAY=MO,WE;UNTIL=20221231" =
      Some ("RRULE:FREQ=WEEKLY;BYDAY=" ++ join "," ["MO"; "WE"] ++ ";UNTIL=" ++ until) /\
    ((exists y m d, mdY_fields "12/31/2022" = Some (y, m, d) /\
        until = fmt_Y y ++ fmt_2 m ++ fmt_2 d) \/
     (("12/31/2022" = "now" \/ "12/31/2022" = "today") /\
        exists i, (0 < i)%nat /\ 1%nat = S i /\ until = strftime_Ymd (now_day (sample_clk i)))).
Proof.
  assert (H : recurrence_event sample_clk 0 spec_rrule_entry =
    Ok ({| title := "Choir"; location := "Room 2";
           description := make_description sample_now;
           start_datetime := "2022-05-02T18:00:00";
           end_datetime := "2022-05-02T19:00:00";
           recurrence := Some "RRULE:FREQ=WEEKLY;BYDAY=MO,WE;UNTIL=20221231" |}, 1%nat))
    by (vm_compute; reflexivity).
  split; [exact H|].
  exact (recurrence_rule_shape sample_clk 0 spec_rrule_entry _ _ H).
Defined.

(** Counterexample to C4: an [end_date] of "today" is not rejected; the
    rule ends on the day of the run, 2022-05-28. *)
Lemma until_today_cex :
  recurrence_event sample_clk 0 today_end_entry =
    Ok ({| title := "Choir"; location := "Room 2";
           description := make_description sample_now;
           start_datetime := "2022-05-02T18:00:00";
           end_datetime := "2022-05-02T19:00:00";
           recurrence := Some "RRULE:FREQ=WEEKLY;BYDAY=MO,WE;UNTIL=20220528" |}, 2%nat) /\
  mdY_fields "today" = None.
Proof. split; vm_compute; reflexivity. Qed.

(** ** The entry check and the propagation of its failures *)

Lemma scan_up_some_range (df : frame) (c : Z) (k : nat) (p : parsed Z) (date_row : Z) :
  scan_up df c k = Ok (Some (p, date_row)) ->
  0 <= date_row < Z.of_nat (length df) /\ date_row < Z.of_nat k.
Proof.
  induction k as [|k IH]; simpl; [discriminate|].
  destruct (get_cell df c (Z.of_nat k)) as [x|] eqn:Hg; simpl; [|discriminate].
  pose proof (get_cell_ok_range _ _ _ _ Hg) as Hr.
  destruct x as [s|].
  - destruct (to_datetime_mdY s).
    + intros H. inversion H; subst. lia.
    + intros H. specialize (IH H). lia.
  - intros H. specialize (IH H). lia.
Qed.

Lemma resolve_date_range (df : frame) (r c : Z) (p : parsed Z) (date_row : Z) :
  resolve_date df r c = Ok (p, date_row) ->
  0 <= date_row < Z.of_nat (length df).
Proof.
  unfold resolve_date.
  destruct (scan_up df c (Z.to_nat r)) as [[[d dr]|]|] eqn:Hs; simpl;
    try discriminate.
  intros H. inversion H; subst. apply (scan_up_some_range df c _ _ _ Hs).
Qed.

Lemma scan_cells_stops (cfg : config) (clk : clock_src) (df : frame)
  (cells : list ((Z * Z) * bool)) (r c : Z) :
  In ((r, c), true) cells ->
  (forall n, exists e, event_for_match cfg clk n df r c = Err e) ->
  forall n, exists e', snd (fst (scan_cells cfg clk df cells n)) = Some e'.
Proof.
  induction cells as [|[[r' c'] v] rest IH]; intros Hin He n; [destruct Hin|].
  simpl. destruct Hin as [Heq|Hin].
  - inversion Heq; subst. destruct (He n) as [e He']. rewrite He'. simpl. eauto.
  - destruct v; [|exact (IH Hin He n)].
    destruct (event_for_match cfg clk n df r' c') as [[ev n']|e]; [|simpl; eauto].
    destruct (scan_cells cfg clk df rest n') as [g n''] eqn:Hs.
    unfold gen_app. simpl. destruct (IH Hin He n') as [e' H']. rewrite Hs in H'.
    simpl in H'. eauto.
Qed.

Lemma get_events_from_df_stops (cfg : config) (clk : clock_src)
  (sheets : list (string * frame)) (name : string) (df : frame) :
  In (name, df) sheets ->
  (forall n, exists e, snd (fst (scan_cells cfg clk df (stack_isin (aliases cfg) df) n)) = Some e) ->
  forall n, exists e', snd (fst (get_events_from_df cfg clk sheets n)) = Some e'.
Proof.
  induction sheets as [|[n0 df'] rest IH]; intros Hin He n; [destruct Hin|].
  simpl. destruct (scan_cells cfg clk df' (stack_isin (aliases cfg) df') n)
    as [[evs [e0|]] n'] eqn:Hs.
  - simpl. eauto.
  - destruct Hin as [Heq|Hin].
    + inversion Heq; subst. destruct (He n) as [e He']. rewrite Hs in He'. discriminate.
    + destruct (get_events_from_df cfg clk rest n') as [g n''] eqn:Hg.
      unfold gen_app. simpl. destruct (IH Hin He n') as [e' H']. rewrite Hg in H'.
      simpl in H'. eauto.
Qed.

Lemma main_events_fails (cfg : config) (clk : clock_src) (sheets : list (string * frame))
  (e : error) :
  snd (fst (get_events_from_df cfg clk sheets 0)) = Some e -> main_events cfg clk sheets = Err e.
Proof.
  unfold main_events. destruct (get_events_from_df cfg clk sheets 0) as [[evs err] n].
  simpl. intros ->. reflexivity.
Qed.

(** An entry anywhere in the scanned sheets that fails from every reading
    of the clock on makes [main] fail. *)
Lemma entry_failure_fatal (cfg : config) (clk : clock_src) (sheets : list (string * frame))
  (name : string) (df : frame) (r c : Z) :
  In (name, df) sheets -> In ((r, c), true) (stack_isin (aliases cfg) df) ->
  (forall n, exists e, event_for_match cfg clk n df r c = Err e) ->
  exists e', main_events cfg clk sheets = Err e'.
Proof.
  intros Hs Hc He.
  pose proof (scan_cells_stops cfg clk df _ r c Hc He) as H1.
  destruct (get_events_from_df_stops cfg clk sheets name df Hs H1 0) as [e2 H2].
  exists e2. apply main_events_fails. exact H2.
Qed.

Lemma get_cell_iloc (df : frame) (c r : Z) (x : cell) :
  0 <= c -> get_cell df c r = Ok x -> x = iloc df (Z.to_nat r) (Z.to_nat c).
Proof.
  intros Hc. unfold get_cell, iloc. destruct (r <? 0); [discriminate|].
  destruct (nth_error df (Z.to_nat r)) as [row|] eqn:Hn; [|discriminate].
  intros H. inversion H; subst. apply nth_error_nth with (d := []) in Hn.
  rewrite Hn. reflexivity.
Qed.

Lemma day_matches_iff (date : Z) (dow : cell) :
  day_matches date dow = true <-> dow = Some (strftime_A date).
Proof.
  unfold day_matches. destruct dow as [s|].
  - rewrite String.eqb_eq. split; intros H; congruence.
  - split; discriminate.
Qed.

(** ** C5 *)

(** Claim C5, as the code has it: for a date found at row [date_row >= 1]
    of column [c] (and read as a timestamp), the check reads the cell
    [df[c][date_row - 1]] and passes exactly when that cell is the text of
    the date's full English weekday name; the entry then becomes an event.
    Otherwise the entry fails with the [AssertionError] whose message
    carries the entry's coordinates only, not the expected or the found
    weekday. *)
Theorem day_check_contract (cfg : config) (clk : clock_src) (n : nat) (df : frame)
  (r c : Z) (p : parsed Z) (date_row date tod : Z) (n1 : nat) :
  0 <= c -> resolve_date df r c = Ok (p, date_row) ->
  read_timestamp clk n p = (TS date tod, n1) -> 1 <= date_row ->
  exists dow,
    get_cell df c (date_row - 1) = Ok dow /\
    dow = iloc df (Z.to_nat (date_row - 1)) (Z.to_nat c) /\
    (day_matches date dow = true <-> dow = Some (strftime_A date)) /\
    event_for_match cfg clk n df r c =
      (if day_matches date dow
       then get_event_from_entry cfg clk n1 date (iloc df (Z.to_nat r) 0)
       else Err (AssertionError_day (r, c))).
Proof.
  intros Hc Hres Hts Hrow.
  pose proof (resolve_date_range df r c p date_row Hres) as Hr.
  destruct (get_cell_in_range df c (date_row - 1) ltac:(lia)) as [dow Hdow].
  exists dow. split; [exact Hdow|]. split; [exact (get_cell_iloc df c _ dow Hc Hdow)|].
  split; [apply day_matches_iff|].
  unfold event_for_match. rewrite Hres. simpl. rewrite Hts, Hdow. reflexivity.
Qed.

Lemma day_check_contract_witness :
  (0 <= 1 /\ resolve_date sample_df 4 1 = Ok (PVal 19137, 3) /\
   read_timestamp sample_clk 0 (PVal 19137) = (TS 19137 0, 0%nat) /\ 1 <= 3) /\
  exists dow,
    get_cell sample_df 1 (3 - 1) = Ok dow /\
    dow = iloc sample_df (Z.to_nat (3 - 1)) (Z.to_nat 1) /\
    (day_matches 19137 dow = true <-> dow = Some (strftime_A 19137)) /\
    event_for_match sample_cfg sample_clk 0 sample_df 4 1 =
      (if day_matches 19137 dow
       then get_event_from_entry sample_cfg sample_clk 0 19137 (iloc sample_df (Z.to_nat 4) 0)
       else Err (AssertionError_day (4, 1))).
Proof.
  assert (H : resolve_date sample_df 4 1 = Ok (PVal 19137, 3)) by (vm_compute; reflexivity).
  assert (Ht : read_timestamp sample_clk 0 (PVal 19137) = (TS 19137 0, 0%nat)) by reflexivity.
  split; [split; [lia | split; [exact H | split; [exact Ht | lia]]]|].
  exact (day_check_contract sample_cfg sample_clk 0 sample_df 4 1 _ 3 19137 0 0
           ltac:(lia) H Ht ltac:(lia)).
Defined.

(** Claim C5 fails: at a mismatch the entry fails with an error that carries
    the coordinates [(3, 1)] only; neither "Wednesday" (expected) nor
    "Tuesday" (found) is part of it. *)
Lemma day_mismatch_payload_cex :
  resolve_date mismatch_df 3 1 = Ok (PVal 19137, 2) /\
  strftime_A 19137 = "Wednesday" /\
  get_cell mismatch_df 1 1 = Ok (Some "Tuesday") /\
  event_for_match sample_cfg sample_clk 0 mismatch_df 3 1 = Err (AssertionError_day (3, 1)).
Proof. vm_compute. repeat split. Qed.

(** ** C9 *)

(** Claim C9: when the first date above an entry is in row 0, the weekday
    check looks up row label [-1], which the frame does not have: the entry
    fails with a [KeyError] (not the weekday [AssertionError]), and so does
    the run. *)
Theorem date_in_row_zero_fails (cfg : config) (clk : clock_src)
  (sheets : list (string * frame)) (name : string) (df : frame) (r c : Z) (p : parsed Z) :
  In (name, df) sheets -> In ((r, c), true) (stack_isin (aliases cfg) df) ->
  resolve_date df r c = Ok (p, 0) ->
  (forall n, event_for_match cfg clk n df r c = Err (KeyError_row (-1))) /\
  exists e, main_events cfg clk sheets = Err e.
Proof.
  intros Hs Hc Hres.
  assert (He : forall n, event_for_match cfg clk n df r c = Err (KeyError_row (-1))).
  { intros n. unfold event_for_match. rewrite Hres. simpl.
    destruct (read_timestamp clk n p). reflexivity. }
  split; [exact He|].
  apply (entry_failure_fatal cfg clk sheets name df r c Hs Hc).
  intros n. eauto.
Qed.

Lemma date_in_row_zero_fails_witness :
  (In ("Sheet1", row0_df) [("Sheet1", row0_df)] /\
   In ((1, 1), true) (stack_isin (aliases sample_cfg) row0_df) /\
   resolve_date row0_df 1 1 = Ok (PVal 19137, 0)) /\
  (forall n, event_for_match sample_cfg sample_clk n row0_df 1 1 = Err (KeyError_row (-1))) /\
  exists e, main_events sample_cfg sample_clk [("Sheet1", row0_df)] = Err e.
Proof.
  assert (H1 : In ("Sheet1", row0_df) [("Sheet1", row0_df)]) by (left; reflexivity).
  assert (H2 : In ((1, 1), true) (stack_isin (aliases sample_cfg) row0_df))
    by (vm_compute; auto 6).
  assert (H3 : resolve_date row0_df 1 1 = Ok (PVal 19137, 0)) by (vm_compute; reflexivity).
  split; [split; [exact H1 | split; [exact H2 | exact H3]]|].
  exact (date_in_row_zero_fails sample_cfg sample_clk _ "Sheet1" row0_df 1 1 _ H1 H2 H3).
Defined.

(** ** C7 *)

(** Claim C7: when the role cell (column 0 of the entry's row) is not a key
    of [role_info], building the event raises [KeyError] on that role; the
    entry yields no event and the run fails. *)
Theorem unknown_role_fatal (cfg : config) (clk : clock_src)
  (sheets : list (string * frame)) (name : string) (df : frame) (r c : Z) :
  In (name, df) sheets -> In ((r, c), true) (stack_isin (aliases cfg) df) ->
  role_lookup cfg (iloc df (Z.to_nat r) 0) = None ->
  (forall n date, get_event_from_entry cfg clk n date (iloc df (Z.to_nat r) 0)
                  = Err (KeyError_role (iloc df (Z.to_nat r) 0))) /\
  (forall n, exists e, event_for_match cfg clk n df r c = Err e) /\
  (exists e, main_events cfg clk sheets = Err e).
Proof.
  intros Hs Hc Hrole.
  assert (Hget : forall n date, get_event_from_entry cfg clk n date (iloc df (Z.to_nat r) 0)
                                = Err (KeyError_role (iloc df (Z.to_nat r) 0))).
  { intros n date. unfold get_event_from_entry. rewrite Hrole. reflexivity. }
  assert (He : forall n, exists e, event_for_match cfg clk n df r c = Err e).
  { intros n. unfold event_for_match.
    destruct (resolve_date df r c) as [[p date_row]|e]; simpl; [|eauto].
    destruct (read_timestamp clk n p) as [ts n1].
    destruct (get_cell df c (date_row - 1)) as [dow|e]; simpl; [|eauto].
    destruct ts as [date tod|]; [|eauto].
    destruct (day_matches date dow); [rewrite Hget|]; eauto. }
  split; [exact Hget|]. split; [exact He|].
  exact (entry_failure_fatal cfg clk sheets name df r c Hs Hc He).
Qed.

Lemma unknown_role_fatal_witness :
  (In ("Sheet1", unknown_role_df) [("Sheet1", unknown_role_df)] /\
   In ((3, 1), true) (stack_isin (aliases sample_cfg) unknown_role_df) /\
   role_lookup sample_cfg (iloc unknown_role_df 3 0) = None) /\
  event_for_match sample_cfg sample_clk 0 unknown_role_df 3 1 = Err (KeyError_role (Some "Greeter")) /\
  exists e, main_events sample_cfg sample_clk [("Sheet1", unknown_role_df)] = Err e.
Proof.
  assert (H1 : In ("Sheet1", unknown_role_df) [("Sheet1", unknown_role_df)]) by (left; reflexivity).
  assert (H2 : In ((3, 1), true) (stack_isin (aliases sample_cfg) unknown_role_df))
    by (vm_compute; auto 10).
  assert (H3 : role_lookup sample_cfg (iloc unknown_role_df 3 0) = None) by reflexivity.
  split; [split; [exact H1 | split; [exact H2 | exact H3]]|].
  split; [vm_compute; reflexivity|].
  exact (proj2 (proj2 (unknown_role_fatal sample_cfg sample_clk _ "Sheet1" unknown_role_df 3 1 H1 H2 H3))).
Defined.

(** ** The events of a successful run *)

Lemma scan_cells_ok (cfg : config) (clk : clock_src) (df : frame)
  (cells : list ((Z * Z) * bool)) :
  forall n evs n',
  scan_cells cfg clk df cells n = ((evs, None), n') ->
  Forall2 (fun rc ev => exists m m', event_for_match cfg clk m df (fst rc) (snd rc) = Ok (ev, m'))
          (map fst (filter snd cells)) evs.
Proof.
  induction cells as [|[[r c] v] rest IH]; intros n evs n' H.
  - simpl in H. inversion H. constructor.
  - simpl in H. destruct v.
    + destruct (event_for_match cfg clk n df r c) as [[ev m]|e] eqn:He; [|discriminate].
      destruct (scan_cells cfg clk df rest m) as [[evs' err] k] eqn:Hr.
      unfold gen_app in H. simpl in H. inversion H; subst.
      simpl. constructor; [eauto | exact (IH _ _ _ Hr)].
    + simpl. exact (IH _ _ _ H).
Qed.

Lemma Forall2_map_l {A A' B} (f : A -> A') (R : A' -> B -> Prop) (l : list A) (l' : list B) :
  Forall2 (fun a b => R (f a) b) l l' -> Forall2 R (map f l) l'.
Proof. induction 1; simpl; constructor; auto. Qed.

Lemma get_events_ok_from (cfg : config) (clk : clock_src) (sheets : list (string * frame)) :
  forall pre n evs n',
  get_events_from_df cfg clk sheets n = ((evs, None), n') ->
  Forall2 (grid_event_at cfg clk (app pre sheets))
          (matched_coords_from (length pre) (aliases cfg) sheets) evs.
Proof.
  induction sheets as [|[name df] rest IH]; intros pre n evs n' H.
  - simpl in H. inversion H. constructor.
  - simpl in H.
    destruct (scan_cells cfg clk df (stack_isin (aliases cfg) df) n) as [[evs1 [e|]] m] eqn:Hs;
      [discriminate|].
    destruct (get_events_from_df cfg clk rest m) as [[evs2 err] k] eqn:Hr.
    unfold gen_app in H. simpl in H. inversion H; subst. simpl.
    apply Forall2_app.
    + apply Forall2_map_l. pose proof (scan_cells_ok _ _ _ _ _ _ _ Hs) as Hf.
      unfold matched_cells. clear -Hf.
      induction Hf as [|x ev l l' [m [m' Hx]] _ IHf]; constructor; auto.
      exists name, df, m, m'. simpl. split; [|exact Hx].
      rewrite nth_error_app2, Nat.sub_diag by lia. reflexivity.
    + specialize (IH (app pre [(name, df)]) m evs2 _ Hr).
      rewrite <- app_assoc in IH. simpl in IH. rewrite length_app in IH. simpl in IH.
      rewrite Nat.add_1_r in IH. exact IH.
Qed.

Lemma gen_map_ok {A B} (f : nat -> A -> result (B * nat)) (xs : list A) :
  forall n ys n',
  gen_map f xs n = ((ys, None), n') -> Forall2 (fun x y => exists m m', f m x = Ok (y, m')) xs ys.
Proof.
  induction xs as [|x rest IH]; intros n ys n' H; simpl in H.
  - inversion H. constructor.
  - destruct (f n x) as [[y m]|e] eqn:Hf; [|discriminate].
    destruct (gen_map f rest m) as [[ys' err] k] eqn:Hr.
    unfold gen_app in H. simpl in H. inversion H; subst.
    constructor; [eauto | exact (IH _ _ _ Hr)].
Qed.

(** A successful run hands over the events of the entries, in the order of
    [matched_coords], followed by those of the recurring schedules, in
    their configured order. *)
Lemma main_events_ok (cfg : config) (clk : clock_src) (sheets : list (string * frame))
  (out : list event) :
  main_events cfg clk sheets = Ok out ->
  exists gevs revs, out = app gevs revs /\
    Forall2 (grid_event_at cfg clk sheets) (matched_coords (aliases cfg) sheets) gevs /\
    Forall2 (fun entry ev => exists n n', recurrence_event clk n entry = Ok (ev, n'))
            (recurring_schedules cfg) revs.
Proof.
  unfold main_events.
  destruct (get_events_from_df cfg clk sheets 0) as [[gevs [e|]] n] eqn:Hg; [discriminate|].
  destruct (get_recurrence_events cfg clk n) as [[revs [e|]] k] eqn:Hr; simpl; [discriminate|].
  intros H. inversion H; subst. exists gevs, revs. split; [reflexivity|]. split.
  - exact (get_events_ok_from cfg clk sheets [] 0 gevs n Hg).
  - exact (gen_map_ok _ _ _ _ _ Hr).
Qed.

Lemma get_event_from_entry_ok (cfg : config) (clk : clock_src) (n : nat) (date : Z)
  (role : cell) (ev : event) (n' : nat) :
  get_event_from_entry cfg clk n date role = Ok (ev, n') ->
  exists ri st et,
    role_lookup cfg role = Some ri /\
    time_read clk (ri_start_time ri) st /\
    time_read clk (ri_end_time ri) et /\
    ev = {| title := ri_title ri;
            location := ri_location ri;
            description := make_description (clk n);
            start_datetime := strftime_iso (combine date st);
            end_datetime := strftime_iso (combine date et);
            recurrence := None |}.
Proof.
  unfold get_event_from_entry.
  destruct (role_lookup cfg role) as [ri|] eqn:H1; [|discriminate]. simpl.
  destruct (read_time clk (S n) (ri_start_time ri)) as [[st n1]|] eqn:H2; [|discriminate]. simpl.
  destruct (read_time clk n1 (ri_end_time ri)) as [[et n2]|] eqn:H3; [|discriminate]. simpl.
  intros H. inversion H. exists ri, st, et. split; [reflexivity|].
  split; [|split; [|reflexivity]].
  - destruct (read_time_ok _ _ _ _ _ H2) as [(Ht & _)|(Ht & -> & _)];
      [left; exact Ht | right; split; eauto].
  - destruct (read_time_ok _ _ _ _ _ H3) as [(Ht & _)|(Ht & -> & _)];
      [left; exact Ht | right; split; eauto].
Qed.

Lemma event_for_match_ok (cfg : config) (clk : clock_src) (n : nat) (df : frame) (r c : Z)
  (ev : event) (n' : nat) :
  event_for_match cfg clk n df r c = Ok (ev, n') ->
  exists p date_row date tod n1,
    resolve_date df r c = Ok (p, date_row) /\
    read_timestamp clk n p = (TS date tod, n1) /\
    get_event_from_entry cfg clk n1 date (iloc df (Z.to_nat r) 0) = Ok (ev, n').
Proof.
  unfold event_for_match.
  destruct (resolve_date df r c) as [[p date_row]|e]; simpl; [|discriminate].
  destruct (read_timestamp clk n p) as [ts n1] eqn:Hts.
  destruct (get_cell df c (date_row - 1)) as [dow|e]; simpl; [|discriminate].
  destruct ts as [date tod|]; [|discriminate].
  destruct (day_matches date dow); [|discriminate].
  intros H. exists p, date_row, date, tod, n1. auto.
Qed.

Lemma read_timestamp_date (clk : clock_src) (n : nat) (p : parsed Z) (date tod : Z) (n1 : nat) :
  read_timestamp clk n p = (TS date tod, n1) -> date_read clk p date.
Proof.
  destruct p as [dn| |]; simpl; intros H; inversion H; subst.
  - left. reflexivity.
  - right. split; eauto.
Qed.

Lemma strptime_IMp_range (s : string) (t : Z) :
  strptime_IMp s = Some t -> 0 <= t < 86400.
Proof.
  unfold strptime_IMp.
  destruct (split_on ":"%char (list_ascii_of_string s)) as [|li [|rest [|]]]; try discriminate.
  destruct (span is_digit rest) as [lm rest'].
  destruct (span is_space rest') as [sp lp].
  destruct sp; [discriminate|].
  destruct (parse_hour12 li) as [i|] eqn:Hi; [|discriminate].
  destruct (parse_minute lm) as [mi|] eqn:Hm; [|discriminate].
  destruct (parse_ampm lp) as [pm|]; [|discriminate].
  intros H. inversion H; subst.
  apply within_range in Hi. apply within_range in Hm.
  pose proof (Z.mod_pos_bound i 12 ltac:(lia)).
  destruct pm; lia.
Qed.

Lemma now_seconds_range (c : clock) : 0 <= now_seconds c < 86400.
Proof.
  unfold now_seconds, now_tod, day_ns.
  pose proof (Z.mod_pos_bound (clock_ns c) 86400000000000 ltac:(lia)).
  split.
  - apply Z.div_pos; lia.
  - apply Z.div_lt_upper_bound; lia.
Qed.

Lemma time_read_range (clk : clock_src) (s : string) (t : Z) :
  time_read clk s t -> 0 <= t < 86400.
Proof.
  intros [H|(_ & i & ->)].
  - apply to_datetime_IMp_cases in H. exact (strptime_IMp_range _ _ H).
  - apply now_seconds_range.
Qed.

Lemma dt_lt_same_day (date st et : Z) :
  dt_lt (combine date st) (combine date et) <-> st < et.
Proof. unfold dt_lt, combine. simpl. lia. Qed.

(** The fields of the events of a successful run, entry by entry. *)
Lemma main_events_detail (cfg : config) (clk : clock_src) (sheets : list (string * frame))
  (out : list event) :
  main_events cfg clk sheets = Ok out ->
  exists gevs revs, out = app gevs revs /\
    Forall2 (fun x ev =>
      exists name df ri p date_row date st et,
        nth_error sheets (fst x) = Some (name, df) /\
        role_lookup cfg (iloc df (Z.to_nat (fst (snd x))) 0) = Some ri /\
        resolve_date df (fst (snd x)) (snd (snd x)) = Ok (p, date_row) /\
        date_read clk p date /\
        time_read clk (ri_start_time ri) st /\ time_read clk (ri_end_time ri) et /\
        title ev = ri_title ri /\
        start_datetime ev = strftime_iso (combine date st) /\
        end_datetime ev = strftime_iso (combine date et) /\
        (dt_lt (combine date st) (combine date et) <-> st < et))
      (matched_coords (aliases cfg) sheets) gevs /\
    Forall2 (fun entry ev =>
      exists sd ts m m' date st et,
        to_datetime_mdY (entry_start_date entry) = Some sd /\
        read_timestamp clk m sd = (ts, m') /\
        first_date_of (entry_days entry) ts = Ok date /\
        time_read clk (entry_start_time entry) st /\ time_read clk (entry_end_time entry) et /\
        title ev = entry_title entry /\
        start_datetime ev = strftime_iso (combine date st) /\
        end_datetime ev = strftime_iso (combine date et) /\
        (dt_lt (combine date st) (combine date et) <-> st < et))
      (recurring_schedules cfg) revs.
Proof.
  intros Hm.
  destruct (main_events_ok cfg clk sheets out Hm) as (gevs & revs & Hout & Hg & Hr).
  exists gevs, revs. split; [exact Hout|]. split.
  - eapply Forall2_impl; [|exact Hg].
    intros x ev (name & df & n & n' & Hn & He).
    destruct (event_for_match_ok _ _ _ _ _ _ _ _ He)
      as (p & date_row & date & tod & n1 & Hres & Hts & Hget).
    destruct (get_event_from_entry_ok _ _ _ _ _ _ _ Hget) as (ri & st & et & H1 & H2 & H3 & ->).
    exists name, df, ri, p, date_row, date, st, et.
    split; [exact Hn|]. split; [exact H1|]. split; [exact Hres|].
    split; [exact (read_timestamp_date _ _ _ _ _ _ Hts)|].
    do 5 (split; [auto|]). apply dt_lt_same_day.
  - eapply Forall2_impl; [|exact Hr].
    intros entry ev (n & n' & He).
    destruct (recurrence_event_ok clk n entry ev n' He)
      as (st & n1 & et & n2 & sd & first_ts & n3 & date & ed & end_ts & end_date &
          H1 & H2 & H3 & H4 & H5 & _ & _ & _ & ->).
    exists sd, first_ts, n2, n3, date, st, et.
    split; [exact H3|]. split; [exact H4|]. split; [exact H5|].
    split.
    { destruct (read_time_ok _ _ _ _ _ H1) as [(Ht & _)|(Ht & -> & _)];
        [left; exact Ht | right; split; eauto]. }
    split.
    { destruct (read_time_ok _ _ _ _ _ H2) as [(Ht & _)|(Ht & -> & _)];
        [left; exact Ht | right; split; eauto]. }
    do 3 (split; [reflexivity|]). apply dt_lt_same_day.
Qed.

Lemma Forall2_in_r {A B} (R : A -> B -> Prop) (l : list A) (l' : list B) (y : B) :
  Forall2 R l l' -> In y l' -> exists x, In x l /\ R x y.
Proof.
  induction 1 as [|a b l l' Hab _ IH]; intros Hy; [destruct Hy|].
  destruct Hy as [->|Hy].
  - exists a. split; [left; reflexivity | exact Hab].
  - destruct (IH Hy) as [x [Hx Hr]]. exists x. split; [right; exact Hx | exact Hr].
Qed.

(** ** C10 *)

(** Claim C10: every event of a successful run, from the sheets or from the
    recurring schedules, has its start and end on one date: both are that
    date combined with a time of day in [[0, 86400)] seconds, so both strings
    begin with the same ["YYYY-MM-DD"] followed by ["T"]. *)
Theorem same_day_events (cfg : config) (clk : clock_src) (sheets : list (string * frame))
  (out : list event) :
  main_events cfg clk sheets = Ok out ->
  forall ev, In ev out ->
  exists date st et,
    0 <= st < 86400 /\ 0 <= et < 86400 /\
    start_datetime ev = strftime_iso (combine date st) /\
    end_datetime ev = strftime_iso (combine date et) /\
    exists p q,
      start_datetime ev = strftime_Ymd_dash date ++ "T" ++ p /\
      end_datetime ev = strftime_Ymd_dash date ++ "T" ++ q.
Proof.
  intros Hm ev Hin.
  destruct (main_events_detail cfg clk sheets out Hm) as (gevs & revs & -> & Hg & Hr).
  apply in_app_or in Hin as [Hin|Hin].
  - destruct (Forall2_in_r _ _ _ _ Hg Hin)
      as [x [_ (name & df & ri & p & date_row & date & st & et & _ & _ & _ & _ & H2 & H3 & _ & H4 & H5 & _)]].
    exists date, st, et.
    split; [exact (time_read_range _ _ _ H2)|]. split; [exact (time_read_range _ _ _ H3)|].
    split; [exact H4|]. split; [exact H5|].
    exists (strftime_HMS st), (strftime_HMS et). rewrite H4, H5. split; reflexivity.
  - destruct (Forall2_in_r _ _ _ _ Hr Hin)
      as [entry [_ (sd & ts & m & m' & date & st & et & _ & _ & _ & H2 & H3 & _ & H4 & H5 & _)]].
    exists date, st, et.
    split; [exact (time_read_range _ _ _ H2)|]. split; [exact (time_read_range _ _ _ H3)|].
    split; [exact H4|]. split; [exact H5|].
    exists (strftime_HMS st), (strftime_HMS et). rewrite H4, H5. split; reflexivity.
Qed.

Lemma same_day_events_witness :
  main_events sample_cfg sample_clk [("Sheet1", sample_df)] =
    Ok [ {| title := "Ushering"; location := "Main hall";
            description := make_description sample_now;
            start_datetime := "2022-05-25T09:00:00";
            end_datetime := "2022-05-25T11:30:00"; recurrence := None |};
         {| title := "Choir"; location := "Room 2";
            description := make_description sample_now;
            start_datetime := "2022-05-02T18:00:00";
            end_datetime := "2022-05-02T19:00:00";
            recurrence := Some "RRULE:FREQ=WEEKLY;BYDAY=MO,WE;UNTIL=20221231" |} ] /\
  exists date st et,
    0 <= st < 86400 /\ 0 <= et < 86400 /\
    "2022-05-25T09:00:00" = strftime_iso (combine date st) /\
    "2022-05-25T11:30:00" = strftime_iso (combine date et) /\
    exists p q,
      "2022-05-25T09:00:00" = strftime_Ymd_dash date ++ "T" ++ p /\
      "2022-05-25T11:30:00" = strftime_Ymd_dash date ++ "T" ++ q.
Proof.
  assert (H : main_events sample_cfg sample_clk [("Sheet1", sample_df)] =
    Ok [ {| title := "Ushering"; location := "Main hall";
            description := make_description sample_now;
            start_datetime := "2022-05-25T09:00:00";
            end_datetime := "2022-05-25T11:30:00"; recurrence := None |};
         {| title := "Choir"; location := "Room 2";
            description := make_description sample_now;
            start_datetime := "2022-05-02T18:00:00";
            end_datetime := "2022-05-02T19:00:00";
            recurrence := Some "RRULE:FREQ=WEEKLY;BYDAY=MO,WE;UNTIL=20221231" |} ])
    by (vm_compute; reflexivity).
  split; [exact H|].
  exact (same_day_events _ _ _ _ H _ (or_introl eq_refl)).
Defined.

(** ** C3 *)

(** Claim C3, as the code has it: in a successful run the event of the entry
    at [(row, col)] of a sheet takes its title verbatim from the
    [role_info] of the role in column 0 of its row, and its start and end
    are the date found above the entry combined with that role's
    [start_time] and [end_time]; the event of a recurring entry takes the
    entry's title and times, combined with its first date.  Start precedes
    end exactly when the start time is earlier than the end time.  Nothing
    checks that order, nor that the title is non-empty: for any role whose
    times parse, in any order, and any title, the event is built. *)
Theorem event_fields_from_config :
  (forall (cfg : config) (clk : clock_src) (sheets : list (string * frame)) (out : list event),
   main_events cfg clk sheets = Ok out ->
   exists gevs revs, out = app gevs revs /\
    Forall2 (fun x ev =>
      exists name df ri p date_row date st et,
        nth_error sheets (fst x) = Some (name, df) /\
        role_lookup cfg (iloc df (Z.to_nat (fst (snd x))) 0) = Some ri /\
        resolve_date df (fst (snd x)) (snd (snd x)) = Ok (p, date_row) /\
        date_read clk p date /\
        time_read clk (ri_start_time ri) st /\ time_read clk (ri_end_time ri) et /\
        title ev = ri_title ri /\
        start_datetime ev = strftime_iso (combine date st) /\
        end_datetime ev = strftime_iso (combine date et) /\
        (dt_lt (combine date st) (combine date et) <-> st < et))
      (matched_coords (aliases cfg) sheets) gevs /\
    Forall2 (fun entry ev =>
      exists sd ts m m' date st et,
        to_datetime_mdY (entry_start_date entry) = Some sd /\
        read_timestamp clk m sd = (ts, m') /\
        first_date_of (entry_days entry) ts = Ok date /\
        time_read clk (entry_start_time entry) st /\ time_read clk (entry_end_time entry) et /\
        title ev = entry_title entry /\
        start_datetime ev = strftime_iso (combine date st) /\
        end_datetime ev = strftime_iso (combine date et) /\
        (dt_lt (combine date st) (combine date et) <-> st < et))
      (recurring_schedules cfg) revs) /\
  (forall (cfg : config) (clk : clock_src) (n : nat) (date : Z) (role : cell)
     (ri : role_info) (st et : Z),
   role_lookup cfg role = Some ri ->
   to_datetime_IMp (ri_start_time ri) = Some (PVal st) ->
   to_datetime_IMp (ri_end_time ri) = Some (PVal et) ->
   get_event_from_entry cfg clk n date role =
     Ok ({| title := ri_title ri;
            location := ri_location ri;
            description := make_description (clk n);
            start_datetime := strftime_iso (combine date st);
            end_datetime := strftime_iso (combine date et);
            recurrence := None |}, S n)).
Proof.
  split.
  - exact main_events_detail.
  - intros cfg clk n date role ri st et Hr Hs He.
    unfold get_event_from_entry. rewrite Hr. simpl.
    unfold read_time. rewrite Hs. simpl. rewrite He. reflexivity.
Qed.

Lemma event_fields_from_config_witness :
  (exists gevs revs,
     [ {| title := "Ushering"; location := "Main hall";
          description := make_description sample_now;
          start_datetime := "2022-05-25T09:00:00";
          end_datetime := "2022-05-25T11:30:00"; recurrence := None |};
       {| title := "Choir"; location := "Room 2";
          description := make_description sample_now;
          start_datetime := "2022-05-02T18:00:00";
          end_datetime := "2022-05-02T19:00:00";
          recurrence := Some "RRULE:FREQ=WEEKLY;BYDAY=MO,WE;UNTIL=20221231" |} ]
     = app gevs revs) /\
  get_event_from_entry reversed_cfg sample_clk 0%nat 19137 (Some "Usher") =
    Ok ({| title := ""; location := "Main hall";
           description := make_description sample_now;
           start_datetime := strftime_iso (combine 19137 (17 * 3600));
           end_datetime := strftime_iso (combine 19137 (9 * 3600));
           recurrence := None |}, 1%nat).
Proof.
  assert (H : main_events sample_cfg sample_clk [("Sheet1", sample_df)] =
    Ok [ {| title := "Ushering"; location := "Main hall";
            description := make_description sample_now;
            start_datetime := "2022-05-25T09:00:00";
            end_datetime := "2022-05-25T11:30:00"; recurrence := None |};
         {| title := "Choir"; location := "Room 2";
            description := make_description sample_now;
            start_datetime := "2022-05-02T18:00:00";
            end_datetime := "2022-05-02T19:00:00";
            recurrence := Some "RRULE:FREQ=WEEKLY;BYDAY=MO,WE;UNTIL=20221231" |} ])
    by (vm_compute; reflexivity).
  split.
  - destruct (proj1 event_fields_from_config _ _ _ _ H) as (gevs & revs & Hout & _ & _).
    exists gevs, revs. exact Hout.
  - exact (proj2 event_fields_from_config reversed_cfg sample_clk 0%nat 19137 (Some "Usher")
             (mk_role_info "" "Main hall" "05:00 PM" "09:00 AM") (17 * 3600) (9 * 3600)
             eq_refl eq_refl eq_refl).
Defined.

(** Claim C3 fails: the run succeeds and hands over an event with an empty
    title that ends eight hours before it starts. *)
Lemma reversed_times_cex :
  main_events reversed_cfg sample_clk [("Sheet1", sample_df)] =
    Ok [ {| title := ""; location := "Main hall";
            description := make_description sample_now;
            start_datetime := "2022-05-25T17:00:00";
            end_datetime := "2022-05-25T09:00:00"; recurrence := None |} ] /\
  to_datetime_IMp "05:00 PM" = Some (PVal (17 * 3600)) /\
  to_datetime_IMp "09:00 AM" = Some (PVal (9 * 3600)) /\
  strftime_iso (combine 19137 (17 * 3600)) = "2022-05-25T17:00:00" /\
  strftime_iso (combine 19137 (9 * 3600)) = "2022-05-25T09:00:00" /\
  ~ dt_lt (combine 19137 (17 * 3600)) (combine 19137 (9 * 3600)).
Proof.
  split; [vm_compute; reflexivity|].
  split; [reflexivity|]. split; [reflexivity|].
  split; [vm_compute; reflexivity|]. split; [vm_compute; reflexivity|].
  unfold dt_lt, combine. simpl. lia.
Qed.

(** ** C6 *)

Lemma no_clock_IMp (s : string) : to_datetime_IMp s = Some PNow -> clock_text s = true.
Proof.
  intros H. apply to_datetime_IMp_cases in H.
  unfold clock_text. destruct H as [-> | ->]; reflexivity.
Qed.

Lemma no_clock_mdY (s : string) : to_datetime_mdY s = Some PNow -> clock_text s = true.
Proof.
  intros H. apply to_datetime_mdY_cases in H.
  unfold clock_text. destruct H as [-> | ->]; reflexivity.
Qed.

Lemma role_lookup_in (cfg : config) (role : cell) (ri : role_info) :
  role_lookup cfg role = Some ri -> exists k, In (k, ri) (role_infos cfg).
Proof.
  unfold role_lookup. destruct role as [k|]; [|discriminate].
  destruct (find (fun p => String.eqb (fst p) k) (role_infos cfg)) as [[k' ri']|] eqn:Hf;
    [|discriminate].
  intros H. inversion H; subst. exists k'. exact (proj1 (find_some _ _ Hf)).
Qed.

Lemma get_cell_some_iloc (df : frame) (c r : Z) (s : string) :
  get_cell df c r = Ok (Some s) -> iloc df (Z.to_nat r) (Z.to_nat c) = Some s.
Proof.
  unfold get_cell, iloc. destruct (r <? 0); [discriminate|].
  destruct (nth_error df (Z.to_nat r)) as [row|] eqn:Hn; [|discriminate].
  intros H. inversion H; subst. apply nth_error_nth with (d := []) in Hn.
  rewrite Hn. reflexivity.
Qed.

Lemma scan_up_parsed (df : frame) (c : Z) (k : nat) (p : parsed Z) (date_row : Z) :
  scan_up df c k = Ok (Some (p, date_row)) ->
  exists s, get_cell df c date_row = Ok (Some s) /\ to_datetime_mdY s = Some p.
Proof.
  induction k as [|k IH]; simpl; [discriminate|].
  destruct (get_cell df c (Z.of_nat k)) as [x|] eqn:Hg; simpl; [|discriminate].
  destruct x as [s|]; [|exact IH].
  destruct (to_datetime_mdY s) as [p'|] eqn:Hp; [|exact IH].
  intros H. inversion H; subst. eauto.
Qed.

Lemma iloc_in (df : frame) (r c : nat) (s : string) :
  iloc df r c = Some s -> In (Some s) (concat df).
Proof.
  unfold iloc. intros H. apply in_concat.
  destruct (nth_in_or_default r df []) as [Hr|Hr].
  - exists (nth r df []). split; [exact Hr|].
    destruct (nth_in_or_default c (nth r df []) None) as [Hc|Hc].
    + rewrite <- H. exact Hc.
    + rewrite Hc in H. discriminate.
  - rewrite Hr in H. destruct c; discriminate.
Qed.

Lemma restamp_app (clk : clock_src) (xs ys : list event) :
  forall n, restamp clk n (app xs ys) = app (restamp clk n xs) (restamp clk (n + length xs)%nat ys).
Proof.
  induction xs as [|x xs IH]; intros n; simpl.
  - rewrite Nat.add_0_r. reflexivity.
  - rewrite IH. rewrite Nat.add_succ_r. reflexivity.
Qed.

Lemma restamp_length (clk : clock_src) (evs : list event) :
  forall n, length (restamp clk n evs) = length evs.
Proof. induction evs as [|ev evs IH]; intros n; simpl; [reflexivity | rewrite IH; reflexivity]. Qed.

Lemma map_with_description_restamp (s : string) (clk : clock_src) (evs : list event) :
  forall n, map (with_description s) (restamp clk n evs) = map (with_description s) evs.
Proof. induction evs as [|ev evs IH]; intros n; simpl; [reflexivity | rewrite IH; reflexivity]. Qed.

Lemma nth_error_restamp (clk : clock_src) (evs : list event) :
  forall n i, nth_error (restamp clk n evs) i =
              option_map (with_description (make_description (clk (n + i)%nat))) (nth_error evs i).
Proof.
  induction evs as [|ev evs IH]; intros n i; destruct i as [|i]; simpl; try reflexivity.
  - rewrite Nat.add_0_r. reflexivity.
  - rewrite IH. rewrite Nat.add_succ_r. reflexivity.
Qed.

Lemma restamp_ext (clk clk' : clock_src) (evs : list event) :
  (forall i, make_description (clk i) = make_description (clk' i)) ->
  forall n, restamp clk n evs = restamp clk' n evs.
Proof.
  intros H. induction evs as [|ev evs IH]; intros n; simpl; [reflexivity|].
  rewrite H, IH. reflexivity.
Qed.

Ltac clock_cases :=
  unfold read_time;
  repeat (cbn [bind of_option read_timestamp read_time rmap fst snd first_date_of strftime_Ymd_ts];
    match goal with
    | |- context [to_datetime_IMp ?s] =>
        let E := fresh "E" in
        destruct (to_datetime_IMp s) as [[?| |]|] eqn:E;
        [ | | exfalso; pose proof (no_clock_IMp _ E); congruence | ]
    | |- context [to_datetime_mdY ?s] =>
        let E := fresh "E" in
        destruct (to_datetime_mdY s) as [[?| |]|] eqn:E;
        [ | | exfalso; pose proof (no_clock_mdY _ E); congruence | ]
    | |- context [first_date_loop_at ?d ?a ?b] => destruct (first_date_loop_at d a b)
    end); try reflexivity.

Section Clock.
Variable cfg : config.
Hypothesis roles_no_clock : forall k ri, In (k, ri) (role_infos cfg) ->
  clock_text (ri_start_time ri) = false /\ clock_text (ri_end_time ri) = false.
Hypothesis entries_no_clock : forall e, In e (recurring_schedules cfg) ->
  clock_text (entry_start_time e) = false /\ clock_text (entry_end_time e) = false /\
  clock_text (entry_start_date e) = false /\ clock_text (entry_end_date e) = false.

(** The event built from the [n]-th reading on, from the one built from the
    [n']-th reading of another clock: its description is restamped, and
    the next reading is the [S n]-th. *)
Let stamp (clk : clock_src) (n : nat) (q : event * nat) : event * nat :=
  (with_description (make_description (clk n)) (fst q), S n).

Lemma get_event_from_entry_clock (clk : clock_src) (n : nat) (clk' : clock_src) (n' : nat)
    (date : Z) (role : cell) :
    get_event_from_entry cfg clk n date role
    = rmap (stamp clk n) (get_event_from_entry cfg clk' n' date role).
  Proof.
    unfold get_event_from_entry.
    destruct (role_lookup cfg role) as [ri|] eqn:Hl; [|reflexivity].
    destruct (role_lookup_in _ _ _ Hl) as [k Hk].
    destruct (roles_no_clock k ri Hk) as [Hs He].
    clock_cases.
  Qed.

Lemma event_for_match_clock (df : frame)
    (Hdf : forall r c s, iloc df r c = Some s -> clock_text s = false)
    (clk : clock_src) (n : nat) (clk' : clock_src) (n' : nat) (r c : Z) :
    event_for_match cfg clk n df r c = rmap (stamp clk n) (event_for_match cfg clk' n' df r c).
  Proof.
    unfold event_for_match.
    destruct (resolve_date df r c) as [[p dr]|e] eqn:Hres; [|reflexivity].
    assert (Hp : p <> PNow).
    { intros ->. unfold resolve_date in Hres.
      destruct (scan_up df c (Z.to_nat r)) as [[[p' dr']|]|] eqn:Hs; try discriminate.
      cbn [bind] in Hres. inversion Hres; subst.
      destruct (scan_up_parsed _ _ _ _ _ Hs) as (s & Hg & Hpn).
      pose proof (Hdf _ _ _ (get_cell_some_iloc _ _ _ _ Hg)).
      pose proof (no_clock_mdY _ Hpn). congruence. }
    cbn [bind].
    destruct p as [dn| |]; [| |contradiction]; cbn [read_timestamp].
    - destruct (get_cell df c (dr - 1)) as [dow|e]; cbn [bind]; [|reflexivity].
      destruct (day_matches dn dow); [apply get_event_from_entry_clock | reflexivity].
    - destruct (get_cell df c (dr - 1)); reflexivity.
  Qed.

Lemma scan_cells_clock (df : frame)
    (Hdf : forall r c s, iloc df r c = Some s -> clock_text s = false)
    (cells : list ((Z * Z) * bool)) :
    forall clk n clk' n',
    scan_cells cfg clk df cells n =
      (gen_restamp clk n (fst (scan_cells cfg clk' df cells n')),
       (n + length (fst (fst (scan_cells cfg clk' df cells n'))))%nat).
  Proof.
    induction cells as [|[[r c] v] rest IH]; intros clk n clk' n'.
    - simpl. rewrite Nat.add_0_r. reflexivity.
    - simpl. destruct v; [|apply IH].
      rewrite (event_for_match_clock df Hdf clk n clk' n' r c).
      destruct (event_for_match cfg clk' n' df r c) as [[ev m]|e]; simpl.
      + rewrite (IH clk (S n) clk' m).
        destruct (scan_cells cfg clk' df rest m) as [[evs err] k]. simpl.
        unfold gen_restamp, gen_app. simpl. f_equal. lia.
      + unfold gen_restamp. simpl. rewrite Nat.add_0_r. reflexivity.
  Qed.

Lemma get_events_from_df_clock (sheets : list (string * frame))
    (Hsh : forall name df, In (name, df) sheets ->
       forall r c s, iloc df r c = Some s -> clock_text s = false) :
    forall clk n clk' n',
    get_events_from_df cfg clk sheets n =
      (gen_restamp clk n (fst (get_events_from_df cfg clk' sheets n')),
       (n + length (fst (fst (get_events_from_df cfg clk' sheets n'))))%nat).
  Proof.
    induction sheets as [|[name df] rest IH]; intros clk n clk' n'.
    - simpl. rewrite Nat.add_0_r. reflexivity.
    - simpl.
      rewrite (scan_cells_clock df (Hsh name df (or_introl eq_refl)) _ clk n clk' n').
      destruct (scan_cells cfg clk' df (stack_isin (aliases cfg) df) n') as [[evs [e|]] m].
      + reflexivity.
      + cbn [fst snd gen_restamp].
        rewrite (IH (fun name' df' H => Hsh name' df' (or_intror H)) clk (n + length evs)%nat clk' m).
        destruct (get_events_from_df cfg clk' rest m) as [[evs2 err] k].
        unfold gen_restamp, gen_app. simpl. rewrite restamp_app, length_app.
        f_equal. lia.
  Qed.

Lemma recurrence_event_clock (entry : schedule_entry)
    (Hin : In entry (recurring_schedules cfg))
    (clk : clock_src) (n : nat) (clk' : clock_src) (n' : nat) :
    recurrence_event clk n entry = rmap (stamp clk n) (recurrence_event clk' n' entry).
  Proof.
    destruct (entries_no_clock entry Hin) as (H1 & H2 & H3 & H4).
    unfold recurrence_event. clock_cases.
  Qed.

Lemma get_recurrence_events_clock (xs : list schedule_entry)
    (Hxs : forall e, In e xs -> In e (recurring_schedules cfg)) :
    forall clk n clk' n',
    gen_map (recurrence_event clk) xs n =
      (gen_restamp clk n (fst (gen_map (recurrence_event clk') xs n')),
       (n + length (fst (fst (gen_map (recurrence_event clk') xs n'))))%nat).
  Proof.
    induction xs as [|x rest IH]; intros clk n clk' n'.
    - simpl. rewrite Nat.add_0_r. reflexivity.
    - simpl.
      rewrite (recurrence_event_clock x (Hxs x (or_introl eq_refl)) clk n clk' n').
      destruct (recurrence_event clk' n' x) as [[ev m]|e]; simpl.
      + rewrite (IH (fun e H => Hxs e (or_intror H)) clk (S n) clk' m).
        destruct (gen_map (recurrence_event clk') rest m) as [[evs err] k]. simpl.
        unfold gen_restamp, gen_app. simpl. f_equal. lia.
      + unfold gen_restamp. simpl. rewrite Nat.add_0_r. reflexivity.
  Qed.

Lemma main_events_clock (sheets : list (string * frame))
    (Hsh : forall name df, In (name, df) sheets ->
       forall r c s, iloc df r c = Some s -> clock_text s = false)
    (clk clk' : clock_src) :
    main_events cfg clk sheets = rmap (restamp clk 0) (main_events cfg clk' sheets).
  Proof.
    unfold main_events, get_recurrence_events.
    rewrite (get_events_from_df_clock sheets Hsh clk 0 clk' 0).
    destruct (get_events_from_df cfg clk' sheets 0) as [[evs [e|]] m]; [reflexivity|].
    cbn [fst snd gen_restamp].
    rewrite (get_recurrence_events_clock (recurring_schedules cfg) (fun e H => H)
               clk (0 + length evs)%nat clk' m).
    destruct (gen_map (recurrence_event clk') (recurring_schedules cfg) m) as [[revs [e|]] k];
      [reflexivity|].
    cbn [fst snd gen_restamp rmap]. rewrite restamp_app. reflexivity.
  Qed.
End Clock.

(** Claim C6, as the code has it: as long as no text the run parses as a
    date or a time (a cell of a sheet, a role's times, a recurring entry's
    times and dates) reads ["now"] or ["today"], the clock enters a run only
    through the descriptions: [main] reads it once per event, in the order
    of the events, and the [i]-th event's description is "Last updated by
    Lalitha on" followed by the [i]-th reading, to the minute.  The run at
    any clock is the run at any other clock with the descriptions restamped;
    the events agree field for field but for the descriptions, and two runs
    whose readings print the same stamps give the same events.  (With
    ["now"] or ["today"] in such a text, dates and times follow the clock
    too.) *)
Theorem clock_only_in_description (cfg : config) (sheets : list (string * frame))
  (clk clk' : clock_src) :
  no_clock_text cfg sheets ->
  main_events cfg clk sheets = rmap (restamp clk 0) (main_events cfg clk' sheets) /\
  rmap (map (with_description "")) (main_events cfg clk sheets)
    = rmap (map (with_description "")) (main_events cfg clk' sheets) /\
  (forall out, main_events cfg clk sheets = Ok out ->
     forall i ev, nth_error out i = Some ev -> description ev = make_description (clk i)) /\
  ((forall i, strftime_now (clk i) = strftime_now (clk' i)) ->
     main_events cfg clk sheets = main_events cfg clk' sheets).
Proof.
  intros (Hsh & Hri & Hent).
  pose proof (main_events_clock cfg Hri Hent sheets Hsh) as Hm.
  split; [apply Hm|]. split; [|split].
  - rewrite (Hm clk clk'). destruct (main_events cfg clk' sheets); [|reflexivity].
    cbn [rmap]. rewrite map_with_description_restamp. reflexivity.
  - intros out Ho i ev Hi.
    pose proof (Hm clk clk) as Hself. rewrite Ho in Hself. cbn [rmap] in Hself.
    inversion Hself as [Hout]. rewrite Hout in Hi. rewrite nth_error_restamp in Hi.
    destruct (nth_error out i) as [ev0|]; [|discriminate].
    cbn in Hi. inversion Hi. reflexivity.
  - intros Hs. rewrite (Hm clk clk'). rewrite (Hm clk' clk') at 2.
    destruct (main_events cfg clk' sheets); [|reflexivity].
    cbn [rmap]. f_equal. apply restamp_ext.
    intros i. unfold make_description. rewrite Hs. reflexivity.
Qed.

Lemma clock_only_in_description_witness :
  no_clock_text sample_cfg [("Sheet1", sample_df)] /\
  main_events sample_cfg (fun i => clock_at 19140 9 (Z.of_nat i)) [("Sheet1", sample_df)]
    = rmap (restamp (fun i => clock_at 19140 9 (Z.of_nat i)) 0)
           (main_events sample_cfg sample_clk [("Sheet1", sample_df)]).
Proof.
  assert (H : no_clock_text sample_cfg [("Sheet1", sample_df)]).
  { split; [|split].
    - intros name df Hin r c s Hs. destruct Hin as [Heq|[]]. inversion Heq; subst.
      apply iloc_in in Hs. simpl in Hs.
      repeat (destruct Hs as [Hs|Hs]; [inversion Hs; subst; reflexivity|]). destruct Hs.
    - intros k ri [Heq|[]]. inversion Heq; subst. split; reflexivity.
    - intros e [<-|[]]. repeat split; reflexivity. }
  split; [exact H|].
  exact (proj1 (clock_only_in_description sample_cfg [("Sheet1", sample_df)]
                  (fun i => clock_at 19140 9 (Z.of_nat i)) sample_clk H)).
Defined.

(** Claim C6 fails: the same sheet and configuration, run at 09:00 and at
    09:01 on 05/28/2022, give different events, whose descriptions end in
    "09:00 AM" and "09:01 AM"; within one run whose clock moves from 09:00
    to 09:01, the two events carry different stamps.  With a date cell
    reading "today", the event's date is the day of the run: 2022-05-28 in
    a run on that day, 2022-06-04 in a run a week later. *)
Lemma clock_dependence_cex :
  main_events sample_cfg (fun _ => clock_at 19140 9 0) [("Sheet1", sample_df)]
    <> main_events sample_cfg (fun _ => clock_at 19140 9 1) [("Sheet1", sample_df)] /\
  make_description (clock_at 19140 9 0)
    = "Last updated by Lalitha on 05/28/2022 at 09:00 AM" ++ newline /\
  make_description (clock_at 19140 9 1)
    = "Last updated by Lalitha on 05/28/2022 at 09:01 AM" ++ newline /\
  rmap (map description)
       (main_events sample_cfg (fun i => clock_at 19140 9 (Z.of_nat i)) [("Sheet1", sample_df)])
    = Ok [make_description (clock_at 19140 9 0); make_description (clock_at 19140 9 1)] /\
  rmap (map start_datetime)
       (main_events sample_cfg (fun _ => clock_at 19140 9 0) [("Sheet1", today_df)])
    = Ok ["2022-05-28T09:00:00"; "2022-05-02T18:00:00"] /\
  rmap (map start_datetime)
       (main_events sample_cfg (fun _ => clock_at 19147 9 0) [("Sheet1", today_df)])
    = Ok ["2022-06-04T09:00:00"; "2022-05-02T18:00:00"].
Proof.
  split; [|split; [|split; [|split; [|split]]]]; try (vm_compute; reflexivity).
  intros H.
  apply (f_equal (fun r => match r with Ok (ev :: _) => description ev | _ => EmptyString end)) in H.
  vm_compute in H. discriminate H.
Qed.

(** ** C8 *)

Lemma SSorted_app {A} (R : A -> A -> Prop) (l1 l2 : list A) :
  StronglySorted R l1 -> StronglySorted R l2 ->
  (forall x y, In x l1 -> In y l2 -> R x y) -> StronglySorted R (app l1 l2).
Proof.
  induction 1 as [|a l1 H1 IH Hf]; intros H2 Hx; simpl; [exact H2|].
  constructor.
  - apply IH; [exact H2|]. intros x y Hx1 Hy. apply Hx; simpl; auto.
  - apply Forall_app. split; [exact Hf|].
    apply Forall_forall. intros y Hy. apply Hx; simpl; auto.
Qed.

Lemma SSorted_filter {A} (R : A -> A -> Prop) (f : A -> bool) (l : list A) :
  StronglySorted R l -> StronglySorted R (filter f l).
Proof.
  induction 1 as [|a l H IH Hf]; simpl; [constructor|].
  destruct (f a); [|exact IH].
  constructor; [exact IH|].
  apply Forall_forall. intros x Hx. apply filter_In in Hx.
  rewrite Forall_forall in Hf. apply Hf. tauto.
Qed.

Lemma SSorted_map {A B} (R : A -> A -> Prop) (R' : B -> B -> Prop) (f : A -> B) (l : list A) :
  (forall x y, R x y -> R' (f x) (f y)) -> StronglySorted R l -> StronglySorted R' (map f l).
Proof.
  intros Hf. induction 1 as [|a l H IH Ha]; simpl; constructor; auto.
  apply Forall_map. eapply Forall_impl; [|exact Ha]. auto.
Qed.

Lemma stack_row_sorted (al : list string) (df : frame) (r : nat) (w : nat) :
  forall s,
  StronglySorted (fun a b => cell_lt (fst a) (fst b))
    (map (fun c => ((Z.of_nat r, Z.of_nat c), isin al (iloc df r c))) (seq s w)).
Proof.
  induction w as [|w IH]; intros s; simpl; constructor; [apply IH|].
  apply Forall_forall. intros x Hx. apply in_map_iff in Hx as [c [<- Hc]].
  apply in_seq in Hc. unfold cell_lt. simpl. right. lia.
Qed.

Lemma stack_rows_sorted (al : list string) (df : frame) (n : nat) :
  forall s,
  StronglySorted (fun a b => cell_lt (fst a) (fst b))
    (flat_map (fun r => map (fun c => ((Z.of_nat r, Z.of_nat c), isin al (iloc df r c)))
                            (seq 0 (width df)))
              (seq s n)).
Proof.
  induction n as [|n IH]; intros s; simpl; [constructor|].
  apply SSorted_app; [apply stack_row_sorted | apply IH|].
  intros x y Hx Hy.
  apply in_map_iff in Hx as [c [<- _]].
  apply in_flat_map in Hy as [r' [Hr' Hy]]. apply in_seq in Hr'.
  apply in_map_iff in Hy as [c' [<- _]].
  unfold cell_lt. simpl. left. lia.
Qed.

Lemma matched_cells_sorted (al : list string) (df : frame) :
  StronglySorted cell_lt (matched_cells al df).
Proof.
  unfold matched_cells. apply (SSorted_map (fun a b => cell_lt (fst a) (fst b))); [auto|].
  apply SSorted_filter. apply stack_rows_sorted.
Qed.

Lemma matched_coords_from_ge (al : list string) (sheets : list (string * frame)) :
  forall i x, In x (matched_coords_from i al sheets) -> (i <= fst x)%nat.
Proof.
  induction sheets as [|[name df] rest IH]; intros i x Hx; simpl in Hx; [destruct Hx|].
  apply in_app_or in Hx as [Hx|Hx].
  - apply in_map_iff in Hx as [rc [<- _]]. simpl. lia.
  - specialize (IH (S i) x Hx). lia.
Qed.

Lemma matched_coords_from_sorted (al : list string) (sheets : list (string * frame)) :
  forall i, StronglySorted coord_lt (matched_coords_from i al sheets).
Proof.
  induction sheets as [|[name df] rest IH]; intros i; simpl; [constructor|].
  apply SSorted_app.
  - apply (SSorted_map cell_lt); [|apply matched_cells_sorted].
    intros x y H. unfold coord_lt. simpl. right. auto.
  - apply IH.
  - intros x y Hx Hy. apply in_map_iff in Hx as [rc [<- _]].
    apply matched_coords_from_ge in Hy. unfold coord_lt. simpl. left. lia.
Qed.

Lemma in_stack_isin (al : list string) (df : frame) (r c : Z) (b : bool) :
  In ((r, c), b) (stack_isin al df) <->
  0 <= r < Z.of_nat (length df) /\ 0 <= c < Z.of_nat (width df) /\
  b = isin al (iloc df (Z.to_nat r) (Z.to_nat c)).
Proof.
  unfold stack_isin. rewrite in_flat_map. split.
  - intros [r' [Hr' Hx]]. apply in_seq in Hr'.
    apply in_map_iff in Hx as [c' [Heq Hc']]. apply in_seq in Hc'.
    inversion Heq; subst. rewrite !Nat2Z.id. repeat split; lia.
  - intros (Hr & Hc & ->). exists (Z.to_nat r). split; [apply in_seq; lia|].
    apply in_map_iff. exists (Z.to_nat c). split; [|apply in_seq; lia].
    rewrite !Z2Nat.id by lia. reflexivity.
Qed.

Lemma in_matched_cells (al : list string) (df : frame) (r c : Z) :
  In (r, c) (matched_cells al df) <->
  0 <= r < Z.of_nat (length df) /\ 0 <= c < Z.of_nat (width df) /\
  isin al (iloc df (Z.to_nat r) (Z.to_nat c)) = true.
Proof.
  unfold matched_cells. rewrite in_map_iff. split.
  - intros [[rc b] [Heq Hin]]. simpl in Heq. subst rc.
    apply filter_In in Hin as [Hin Hb]. simpl in Hb. subst b.
    apply in_stack_isin in Hin as (H1 & H2 & H3). auto.
  - intros (H1 & H2 & H3). exists ((r, c), true). split; [reflexivity|].
    apply filter_In. split; [|reflexivity]. apply in_stack_isin. auto.
Qed.

Lemma in_matched_coords_from (al : list string) (sheets : list (string * frame)) :
  forall i k rc,
  In (k, rc) (matched_coords_from i al sheets) <->
  (i <= k)%nat /\ exists name df, nth_error sheets (k - i) = Some (name, df) /\
    In rc (matched_cells al df).
Proof.
  induction sheets as [|[name df] rest IH]; intros i k rc; simpl.
  - split; [intros []|]. intros [_ [name [df [H _]]]]. destruct (k - i)%nat; discriminate.
  - rewrite in_app_iff, IH, in_map_iff. split.
    + intros [[rc' [Heq Hin]]|[Hk [name' [df' [Hn Hin]]]]].
      * inversion Heq; subst. split; [lia|]. exists name, df.
        rewrite Nat.sub_diag. split; [reflexivity | exact Hin].
      * split; [lia|]. exists name', df'.
        replace (k - i)%nat with (S (k - S i)) by lia. split; [exact Hn | exact Hin].
    + intros [Hk [name' [df' [Hn Hin]]]].
      destruct (Nat.eq_dec k i) as [->|Hne].
      * left. rewrite Nat.sub_diag in Hn. simpl in Hn. inversion Hn; subst.
        exists rc. split; [reflexivity | exact Hin].
      * right. split; [lia|]. exists name', df'.
        replace (k - i)%nat with (S (k - S i)) in Hn by lia. split; [exact Hn | exact Hin].
Qed.

(** Claim C8: a successful run hands over first the events of the sheets'
    entries, then those of the recurring schedules in their configured
    order.  The entries are the cells whose text is an alias, listed by
    sheet (in the iteration order of [df_dict]), then row, then column: the
    list [matched_coords] is strictly increasing in that order and holds
    exactly those cells, and the i-th grid event is built from its i-th
    cell. *)
Theorem output_order (cfg : config) (clk : clock_src) (sheets : list (string * frame))
  (out : list event) :
  main_events cfg clk sheets = Ok out ->
  exists gevs revs, out = app gevs revs /\
    Forall2 (grid_event_at cfg clk sheets) (matched_coords (aliases cfg) sheets) gevs /\
    Forall2 (fun entry ev => exists n n', recurrence_event clk n entry = Ok (ev, n'))
            (recurring_schedules cfg) revs /\
    StronglySorted coord_lt (matched_coords (aliases cfg) sheets) /\
    (forall k r c, In (k, (r, c)) (matched_coords (aliases cfg) sheets) <->
       exists name df, nth_error sheets k = Some (name, df) /\
         0 <= r < Z.of_nat (length df) /\ 0 <= c < Z.of_nat (width df) /\
         isin (aliases cfg) (iloc df (Z.to_nat r) (Z.to_nat c)) = true).
Proof.
  intros Hm.
  destruct (main_events_ok cfg clk sheets out Hm) as (gevs & revs & Hout & Hg & Hr).
  exists gevs, revs. split; [exact Hout|]. split; [exact Hg|]. split; [exact Hr|].
  split; [apply matched_coords_from_sorted|].
  intros k r c. unfold matched_coords. rewrite in_matched_coords_from.
  rewrite Nat.sub_0_r. split.
  - intros [_ [name [df [Hn Hin]]]]. exists name, df. split; [exact Hn|].
    apply in_matched_cells. exact Hin.
  - intros [name [df [Hn Hin]]]. split; [lia|]. exists name, df. split; [exact Hn|].
    apply in_matched_cells. exact Hin.
Qed.

Lemma output_order_witness :
  let sheets := [("Sheet1", sample_df); ("Sheet2", sample_df)] in
  exists out, main_events sample_cfg sample_clk sheets = Ok out /\
    matched_coords (aliases sample_cfg) sheets = [(0%nat, (4, 1)); (1%nat, (4, 1))] /\
    (exists gevs revs, out = app gevs revs /\
       Forall2 (grid_event_at sample_cfg sample_clk sheets)
               (matched_coords (aliases sample_cfg) sheets) gevs /\
       StronglySorted coord_lt (matched_coords (aliases sample_cfg) sheets)).
Proof.
  intros sheets.
  destruct (main_events sample_cfg sample_clk sheets) as [out|e] eqn:Hm.
  - exists out. split; [reflexivity|]. split; [vm_compute; reflexivity|].
    destruct (output_order sample_cfg sample_clk sheets out Hm)
      as (gevs & revs & H1 & H2 & _ & H4 & _).
    exists gevs, revs. split; [exact H1|]. split; [exact H2 | exact H4].
  - vm_compute in Hm. discriminate.
Defined.
(** * Properties of the calendar side of [main] and of [get_cfg] *)

(** ** Dictionaries *)

Lemma dict_get_set_same (d : ydict) (k : string) (v : yaml) :
  dict_get (dict_set d k v) k = Some v.
Proof.
  induction d as [|[k' v'] t IH]; simpl.
  - rewrite String.eqb_refl. reflexivity.
  - destruct (String.eqb_spec k' k) as [->|Hne]; simpl.
    + rewrite String.eqb_refl. reflexivity.
    + apply String.eqb_neq in Hne. rewrite Hne. exact IH.
Qed.

Lemma dict_get_set_other (d : ydict) (k k' : string) (v : yaml) :
  k' <> k -> dict_get (dict_set d k v) k' = dict_get d k'.
Proof.
  intros Hne. induction d as [|[k0 v0] t IH]; simpl.
  - apply not_eq_sym, String.eqb_neq in Hne. rewrite Hne. reflexivity.
  - destruct (String.eqb_spec k0 k) as [->|Hk]; simpl.
    + apply not_eq_sym, String.eqb_neq in Hne. rewrite Hne. reflexivity.
    + rewrite IH. reflexivity.
Qed.

Lemma join_key_ok (dp : string) (cfg : ydict) (k p : string) :
  join_key dp cfg k = MOk p -> exists s, dict_get cfg k = Some (YStr s) /\ p = path_join dp s.
Proof.
  unfold join_key. destruct (dict_get cfg k) as [[s|]|]; intros H; try discriminate.
  inversion H. eauto.
Qed.

(** ** The calendar lookup *)

Ltac destruct_goal_matches :=
  repeat match goal with
         | |- context [match ?x with _ => _ end] => destruct x
         end.

Lemma find_app {A} (f : A -> bool) (l1 l2 : list A) :
  find f (app l1 l2) = match find f l1 with Some x => Some x | None => find f l2 end.
Proof.
  induction l1 as [|a t IH]; simpl; [reflexivity|]. destruct (f a); [reflexivity | exact IH].
Qed.

Lemma get_calendar_store (new_id : list calendar -> string) (ac : api_config) (sv : service) :
  events_store (snd (get_calendar new_id ac sv)) = events_store sv.
Proof.
  unfold get_calendar. simpl. destruct_goal_matches; reflexivity.
Qed.

(** What [get_calendar] returns and does with a configured name and time
    zone. *)
Lemma get_calendar_spec (new_id : list calendar -> string) (ac : api_config) (sv : service)
  (name tz : string) :
  calendar_name ac = Some name -> timezone ac = Some tz ->
  match find (fun c => String.eqb (cal_summary c) name) (firstn PAGE_SIZE (calendars sv)) with
  | Some c => fst (get_calendar new_id ac sv) = MOk (cal_id c) /\
              calendars (snd (get_calendar new_id ac sv)) = calendars sv
  | None => fst (get_calendar new_id ac sv) = MOk (new_id (calendars sv)) /\
            calendars (snd (get_calendar new_id ac sv))
              = app (calendars sv) [mk_calendar name (new_id (calendars sv)) tz]
  end.
Proof.
  intros Hn Ht. unfold get_calendar. rewrite Hn. cbn [calendars print].
  destruct (firstn PAGE_SIZE (calendars sv)) as [|c0 cs] eqn:Hf.
  - cbn [find]. rewrite Ht. split; reflexivity.
  - cbn [find]. destruct (String.eqb (cal_summary c0) name); [split; reflexivity|].
    destruct (find _ cs); [split; reflexivity|]. rewrite Ht. split; reflexivity.
Qed.

(** [get_calendar] succeeds only with both keys where it creates, and its
    result depends on the calendars of the service only. *)
Lemma get_calendar_ok (new_id : list calendar -> string) (ac : api_config) (sv : service)
  (cid : string) (sv1 : service) :
  get_calendar new_id ac sv = (MOk cid, sv1) ->
  exists name, calendar_name ac = Some name /\
    ((exists c, find (fun c => String.eqb (cal_summary c) name)
                     (firstn PAGE_SIZE (calendars sv)) = Some c /\
                cid = cal_id c /\ calendars sv1 = calendars sv) \/
     (exists tz, timezone ac = Some tz /\
        find (fun c => String.eqb (cal_summary c) name) (firstn PAGE_SIZE (calendars sv)) = None /\
        cid = new_id (calendars sv) /\
        calendars sv1 = app (calendars sv) [mk_calendar name (new_id (calendars sv)) tz])).
Proof.
  intros H. destruct (calendar_name ac) as [name|] eqn:Hn.
  2:{ unfold get_calendar in H. rewrite Hn in H.
      destruct (firstn PAGE_SIZE (calendars (print sv _))); inversion H. }
  exists name. split; [reflexivity|].
  destruct (timezone ac) as [tz|] eqn:Ht.
  - pose proof (get_calendar_spec new_id ac sv name tz Hn Ht) as Hs.
    rewrite H in Hs. simpl in Hs.
    destruct (find _ _) as [c|] eqn:Hfind; destruct Hs as [H1 H2]; inversion H1; subst.
    + left. exists c. auto.
    + right. exists tz. auto.
  - left. unfold get_calendar in H. rewrite Hn, Ht in H. cbn [calendars print] in H.
    destruct (find (fun c => String.eqb (cal_summary c) name)
                   (firstn PAGE_SIZE (calendars sv))) as [c|] eqn:Hcs.
    + exists c. destruct (firstn PAGE_SIZE (calendars sv)); inversion H; subst; auto.
    + destruct (firstn PAGE_SIZE (calendars sv)); inversion H.
Qed.

Lemma get_calendar_same_calendars (new_id : list calendar -> string) (ac : api_config)
  (sv sv' : service) :
  calendars sv' = calendars sv ->
  fst (get_calendar new_id ac sv') = fst (get_calendar new_id ac sv) /\
  calendars (snd (get_calendar new_id ac sv')) = calendars (snd (get_calendar new_id ac sv)).
Proof.
  intros Hc. unfold get_calendar. cbn [calendars print add_calendar]. rewrite Hc.
  destruct_goal_matches; cbn [fst snd calendars print add_calendar]; rewrite ?Hc; auto.
Qed.

(** A second lookup, on the calendars the first left, finds the same
    calendar and creates none. *)
Lemma get_calendar_again (new_id : list calendar -> string) (ac : api_config)
  (sv sv1 sv' : service) (cid : string) :
  get_calendar new_id ac sv = (MOk cid, sv1) ->
  (length (calendars sv) < PAGE_SIZE)%nat ->
  calendars sv' = calendars sv1 ->
  fst (get_calendar new_id ac sv') = MOk cid /\
  calendars (snd (get_calendar new_id ac sv')) = calendars sv1.
Proof.
  intros H Hlen Hc.
  destruct (get_calendar_ok new_id ac sv cid sv1 H) as
    [name [Hn [[c [Hf [-> Hc1]]]|[tz [Ht [Hf [-> Hc1]]]]]]].
  - rewrite firstn_all2 in Hf by lia.
    destruct (timezone ac) as [tz|] eqn:Ht.
    + pose proof (get_calendar_spec new_id ac sv' name tz Hn Ht) as Hs.
      rewrite Hc, Hc1, firstn_all2, Hf in Hs by lia. rewrite Hc1. exact Hs.
    + unfold get_calendar. cbn [calendars print]. rewrite Hn, Hc, Hc1, firstn_all2 by lia.
      destruct (calendars sv) as [|c0 cs]; [discriminate|]. cbn [find] in Hf |- *.
      destruct (String.eqb (cal_summary c0) name).
      * inversion Hf; subst. cbn [fst snd calendars print]. rewrite Hc, Hc1. auto.
      * rewrite Hf. cbn [fst snd calendars print]. rewrite Hc, Hc1. auto.
  - assert (Ht' := Ht).
    pose proof (get_calendar_spec new_id ac sv' name tz Hn Ht) as Hs.
    rewrite Hc, Hc1 in Hs. rewrite firstn_all2 in Hs by (rewrite length_app; simpl; lia).
    rewrite firstn_all2 in Hf by lia.
    rewrite find_app, Hf in Hs. simpl in Hs. rewrite String.eqb_refl in Hs.
    rewrite Hc1. exact Hs.
Qed.

(** ** The batch *)

Lemma add_events_ok (ac : api_config) (cid : string) (evs : list event) :
  forall b b', add_events ac cid evs b = MOk b' ->
  (evs = [] \/ length b + length evs <= MAX_BATCH_LIMIT)%nat /\
  exists reqs, b' = app b reqs /\ Forall2 (req_of ac cid) evs reqs.
Proof.
  induction evs as [|ev rest IH]; intros b b' H; simpl in H.
  - inversion H; subst. split; [left; reflexivity|].
    exists []. rewrite app_nil_r. auto.
  - unfold create_event in H.
    destruct (create_body ac ev) as [bd|e] eqn:Hb; [|discriminate].
    unfold batch_add in H.
    destruct (MAX_BATCH_LIMIT <=? length b)%nat eqn:Hl; [discriminate|].
    apply Nat.leb_gt in Hl.
    destruct (IH _ _ H) as [Hlen [reqs [-> Hf]]].
    rewrite length_app in Hlen. simpl in Hlen. split.
    { right. destruct Hlen as [->|Hlen]; simpl; lia. }
    exists ((cid, bd) :: reqs). rewrite <- app_assoc. split; [reflexivity|].
    constructor; [exists bd; auto | exact Hf].
Qed.

Lemma add_events_complete (ac : api_config) (cid : string) (evs : list event) :
  forall b, (length b + length evs <= MAX_BATCH_LIMIT)%nat ->
  Forall (fun ev => exists bd, create_body ac ev = MOk bd) evs ->
  exists b', add_events ac cid evs b = MOk b'.
Proof.
  induction evs as [|ev rest IH]; intros b Hlen Hf; simpl; [eauto|].
  inversion Hf as [|? ? [bd Hb] Hrest]; subst.
  unfold create_event. rewrite Hb. unfold batch_add.
  simpl in Hlen. destruct (MAX_BATCH_LIMIT <=? length b)%nat eqn:Hl.
  - apply Nat.leb_le in Hl. lia.
  - apply IH; [rewrite length_app; simpl; lia | exact Hrest].
Qed.

Lemma add_gen_ok (ac : api_config) (cid : string) (g : gen event) (b b' : list request) :
  add_gen ac cid g b = MOk b' -> snd g = None /\ add_events ac cid (fst g) b = MOk b'.
Proof.
  unfold add_gen. destruct (add_events ac cid (fst g) b) eqn:H; [|discriminate].
  destruct (snd g); intros E; inversion E; subst; auto.
Qed.

Lemma main_events_gens (cfg : config) (clk : clock_src) (sheets : list (string * frame))
  (evs : list event) :
  main_events cfg clk sheets = Ok evs ->
  exists gevs revs n, get_events_from_df cfg clk sheets 0 = ((gevs, None), n) /\
    fst (get_recurrence_events cfg clk n) = (revs, None) /\ evs = app gevs revs.
Proof.
  unfold main_events.
  destruct (get_events_from_df cfg clk sheets 0) as [[gevs [e|]] n]; [discriminate|].
  destruct (fst (get_recurrence_events cfg clk n)) as [revs [e|]] eqn:Hr; [discriminate|].
  intros H. inversion H. exists gevs, revs, n. auto.
Qed.

Lemma main_run_ok (new_id : list calendar -> string) (ac : api_config) (cfg : config)
  (clk : clock_src) (sheets : list (string * frame)) (resp : nat -> bool) (sv sv' : service) :
  main_run new_id ac cfg clk sheets resp sv = (MOk tt, sv') ->
  exists cid sv1 evs reqs,
    get_calendar new_id ac sv = (MOk cid, sv1) /\
    main_events cfg clk sheets = Ok evs /\
    (length evs <= MAX_BATCH_LIMIT)%nat /\
    Forall2 (req_of ac cid) evs reqs /\
    sv' = execute resp reqs sv1.
Proof.
  unfold main_run.
  destruct (get_calendar new_id ac sv) as [[cid|e] sv1] eqn:Hg; [|discriminate].
  destruct (get_events_from_df cfg clk sheets 0) as [g1 n] eqn:Hge.
  destruct (add_gen ac cid g1 []) as [b|e] eqn:H1; [|discriminate].
  destruct (add_gen ac cid (fst (get_recurrence_events cfg clk n)) b) as [b'|e] eqn:H2;
    [|discriminate].
  intros H. inversion H; subst sv'.
  apply add_gen_ok in H1 as [Hs1 H1]. apply add_gen_ok in H2 as [Hs2 H2].
  destruct g1 as [gevs g1]. destruct (fst (get_recurrence_events cfg clk n)) as [revs g2] eqn:Hre.
  simpl in *. subst g1 g2.
  apply add_events_ok in H1 as [L1 [reqs1 [-> F1]]].
  apply add_events_ok in H2 as [L2 [reqs2 [-> F2]]].
  exists cid, sv1, (app gevs revs), (app reqs1 reqs2).
  split; [reflexivity|]. split.
  { unfold main_events. rewrite Hge, Hre. reflexivity. }
  pose proof (Forall2_length F1) as E1. simpl in L2. rewrite length_app.
  split; [destruct L1 as [->|L1]; destruct L2 as [->|L2]; simpl in *; lia|].
  split; [apply Forall2_app; assumption | reflexivity].
Qed.

(** The answers of the server only decide which requests [execute] stores. *)
Lemma main_run_resp (new_id : list calendar -> string) (ac : api_config) (cfg : config)
  (clk : clock_src) (sheets : list (string * frame)) (resp resp' : nat -> bool) (sv : service) :
  fst (main_run new_id ac cfg clk sheets resp sv)
    = fst (main_run new_id ac cfg clk sheets resp' sv).
Proof.
  unfold main_run. destruct (get_calendar new_id ac sv) as [[cid|e] sv1]; [|reflexivity].
  destruct (get_events_from_df cfg clk sheets 0) as [g1 n].
  destruct (add_gen ac cid g1 []); [|reflexivity].
  destruct (add_gen ac cid (fst (get_recurrence_events cfg clk n)) _); reflexivity.
Qed.

Lemma accepted_all (b : list request) (i : nat) :
  accepted (fun _ => true) i b = b.
Proof. revert i; induction b as [|r b IH]; intros i; simpl; [|rewrite IH]; reflexivity. Qed.

Lemma accepted_sublist (resp : nat -> bool) (b : list request) (i : nat) :
  incl (accepted resp i b) b.
Proof.
  revert i; induction b as [|r b IH]; intros i; simpl; [apply incl_refl|].
  destruct (resp i).
  - apply incl_cons; [left; reflexivity|]. apply incl_tl, IH.
  - apply incl_tl, IH.
Qed.

(** ** The description stamp *)

Lemma stamp_time_check_true : stamp_time_check = true.
Proof. vm_compute. reflexivity. Qed.

Lemma stamp_time_parse (h mi : Z) :
  0 <= h < 24 -> 0 <= mi < 60 ->
  to_datetime_IMp (stamp_time h mi) = Some (PVal (h * 3600 + mi * 60)).
Proof.
  intros Hh Hm. pose proof stamp_time_check_true as C. unfold stamp_time_check in C.
  rewrite forallb_forall in C. specialize (C (Z.to_nat h) ltac:(apply in_seq; lia)).
  rewrite forallb_forall in C. specialize (C (Z.to_nat mi) ltac:(apply in_seq; lia)).
  rewrite !Z2Nat.id in C by lia.
  destruct (to_datetime_IMp (stamp_time h mi)) as [[t| |]|]; try discriminate.
  apply Z.eqb_eq in C. subst. reflexivity.
Qed.

Lemma now_hour_range (c : clock) : 0 <= now_hour c < 24.
Proof.
  unfold now_hour, now_tod, day_ns.
  pose proof (Z.mod_pos_bound (clock_ns c) 86400000000000 ltac:(lia)).
  split; [apply Z.div_pos; lia|]. apply Z.div_lt_upper_bound; lia.
Qed.

Lemma now_minute_range (c : clock) : 0 <= now_minute c < 60.
Proof. unfold now_minute. apply Z.mod_pos_bound. lia. Qed.

Lemma string_app_assoc (a b c : string) : (a ++ b) ++ c = a ++ (b ++ c).
Proof. induction a as [|x a IH]; simpl; [reflexivity | rewrite IH; reflexivity]. Qed.

(** ** Extra properties *)

(** [get_calendar], with [calendar_name] and [timezone] configured: it
    returns the id of the first calendar of the first page whose summary is
    the configured name, and creates nothing; when no calendar there has that
    name it creates exactly one, with that name and time zone, and returns
    its id.  It never inserts or removes events. *)
Theorem get_calendar_result (new_id : list calendar -> string) (ac : api_config)
  (sv : service) (name tz : string) :
  calendar_name ac = Some name -> timezone ac = Some tz ->
  events_store (snd (get_calendar new_id ac sv)) = events_store sv /\
  match find (fun c => String.eqb (cal_summary c) name) (firstn PAGE_SIZE (calendars sv)) with
  | Some c => fst (get_calendar new_id ac sv) = MOk (cal_id c) /\
              calendars (snd (get_calendar new_id ac sv)) = calendars sv
  | None => fst (get_calendar new_id ac sv) = MOk (new_id (calendars sv)) /\
            calendars (snd (get_calendar new_id ac sv))
              = app (calendars sv) [mk_calendar name (new_id (calendars sv)) tz]
  end.
Proof.
  intros Hn Ht. split; [apply get_calendar_store | apply get_calendar_spec; assumption].
Qed.

Lemma get_calendar_result_witness :
  calendar_name sample_api = Some "Volunteering" /\
  timezone sample_api = Some "America/New_York" /\
  events_store (snd (get_calendar sample_new_id sample_api sample_service))
    = events_store sample_service /\
  fst (get_calendar sample_new_id sample_api sample_service) = MOk "cal01" /\
  calendars (snd (get_calendar sample_new_id sample_api sample_service))
    = app (calendars sample_service)
          [mk_calendar "Volunteering" "cal01" "America/New_York"].
Proof.
  pose proof (get_calendar_result sample_new_id sample_api sample_service
                "Volunteering" "America/New_York" eq_refl eq_refl) as [H1 H2].
  vm_compute in H2. split; [reflexivity|]. split; [reflexivity|].
  split; [exact H1 | exact H2].
Defined.

(** [get_calendar] a second time, on the calendars the first call left
    (fewer than a page before it): the same id, and no calendar created. *)
Theorem get_calendar_idempotent (new_id : list calendar -> string) (ac : api_config)
  (sv sv1 : service) (cid : string) :
  get_calendar new_id ac sv = (MOk cid, sv1) ->
  (length (calendars sv) < PAGE_SIZE)%nat ->
  fst (get_calendar new_id ac sv1) = MOk cid /\
  calendars (snd (get_calendar new_id ac sv1)) = calendars sv1.
Proof.
  intros H Hlen. exact (get_calendar_again new_id ac sv sv1 sv1 cid H Hlen eq_refl).
Qed.

Lemma get_calendar_idempotent_witness :
  get_calendar sample_new_id sample_api sample_service
    = (MOk "cal01", snd (get_calendar sample_new_id sample_api sample_service)) /\
  (length (calendars sample_service) < PAGE_SIZE)%nat /\
  fst (get_calendar sample_new_id sample_api
         (snd (get_calendar sample_new_id sample_api sample_service))) = MOk "cal01" /\
  calendars (snd (get_calendar sample_new_id sample_api
                    (snd (get_calendar sample_new_id sample_api sample_service))))
    = calendars (snd (get_calendar sample_new_id sample_api sample_service)).
Proof.
  assert (H : get_calendar sample_new_id sample_api sample_service
              = (MOk "cal01", snd (get_calendar sample_new_id sample_api sample_service)))
    by (vm_compute; reflexivity).
  split; [exact H|]. split; [vm_compute; lia|].
  apply (get_calendar_idempotent sample_new_id sample_api sample_service _ "cal01" H).
  vm_compute. lia.
Defined.

(** [main] after a successful run: the events of [main_events] (at most
    [MAX_BATCH_LIMIT] of them) were sent as one batch of insert requests,
    in their order, each into the calendar [get_calendar] returned, with its
    title as summary, its location, description, start and end, the
    configured time zone on start and end, and a recurrence exactly when the
    event has one.  The server stores, in an order of its own, the requests
    it accepts; one it rejects is dropped without a trace, and [main]
    reports success whatever the answers.  The server's calendars are those
    [get_calendar] left. *)
Theorem main_run_requests (new_id : list calendar -> string) (ac : api_config) (cfg : config)
  (clk : clock_src) (sheets : list (string * frame)) (resp : nat -> bool) (sv sv' : service) :
  main_run new_id ac cfg clk sheets resp sv = (MOk tt, sv') ->
  exists cid evs reqs,
    fst (get_calendar new_id ac sv) = MOk cid /\
    main_events cfg clk sheets = Ok evs /\
    (length evs <= MAX_BATCH_LIMIT)%nat /\
    calendars sv' = calendars (snd (get_calendar new_id ac sv)) /\
    Permutation (events_store sv') (app (events_store sv) (accepted resp 0 reqs)) /\
    incl (accepted resp 0 reqs) reqs /\
    (forall resp', fst (main_run new_id ac cfg clk sheets resp' sv) = MOk tt) /\
    Forall2 (fun ev r =>
      fst r = cid /\ body_summary (snd r) = title ev /\ body_location (snd r) = location ev /\
      body_description (snd r) = description ev /\
      body_start (snd r) = start_datetime ev /\ body_end (snd r) = end_datetime ev /\
      timezone ac = Some (body_start_tz (snd r)) /\ body_end_tz (snd r) = body_start_tz (snd r) /\
      body_recurrence (snd r) = recurrence ev) evs reqs.
Proof.
  intros H.
  assert (Hresp : forall resp', fst (main_run new_id ac cfg clk sheets resp' sv) = MOk tt).
  { intros resp'. rewrite (main_run_resp new_id ac cfg clk sheets resp' resp sv), H.
    reflexivity. }
  destruct (main_run_ok new_id ac cfg clk sheets resp sv sv' H)
    as (cid & sv1 & evs & reqs & Hg & Hm & Hl & Hf & ->).
  exists cid, evs, reqs. rewrite Hg. simpl.
  split; [reflexivity|]. split; [exact Hm|]. split; [exact Hl|]. split; [reflexivity|].
  split.
  { pose proof (get_calendar_store new_id ac sv) as Hs. rewrite Hg in Hs. simpl in Hs.
    rewrite Hs. apply Permutation_refl. }
  split; [apply accepted_sublist|]. split; [exact Hresp|].
  eapply Forall2_impl; [|exact Hf].
  intros ev r [bd [Hb ->]]. simpl. unfold create_body in Hb.
  destruct (creator_name ac); [|discriminate]. destruct (source ac) as [src|]; [|discriminate].
  destruct (src_title src); [|discriminate]. destruct (src_url src); [|discriminate].
  destruct (timezone ac); [|discriminate]. inversion Hb; subst. simpl.
  repeat split; reflexivity.
Qed.

Lemma main_run_requests_witness :
  main_run sample_new_id sample_api sample_cfg sample_clk [("Sheet1", sample_df)]
    (fun i => negb (i =? 0)%nat) sample_service
    = (MOk tt, snd (main_run sample_new_id sample_api sample_cfg sample_clk
                      [("Sheet1", sample_df)] (fun i => negb (i =? 0)%nat) sample_service)) /\
  exists cid evs reqs,
    fst (get_calendar sample_new_id sample_api sample_service) = MOk cid /\
    main_events sample_cfg sample_clk [("Sheet1", sample_df)] = Ok evs /\
    length reqs = 2%nat /\
    accepted (fun i => negb (i =? 0)%nat) 0 reqs = skipn 1 reqs /\
    length (events_store (snd (main_run sample_new_id sample_api sample_cfg sample_clk
              [("Sheet1", sample_df)] (fun i => negb (i =? 0)%nat) sample_service))) = 1%nat.
Proof.
  assert (H : main_run sample_new_id sample_api sample_cfg sample_clk [("Sheet1", sample_df)]
                (fun i => negb (i =? 0)%nat) sample_service
              = (MOk tt, snd (main_run sample_new_id sample_api sample_cfg sample_clk
                                [("Sheet1", sample_df)] (fun i => negb (i =? 0)%nat)
                                sample_service)))
    by (vm_compute; reflexivity).
  split; [exact H|].
  destruct (main_run_requests _ _ _ _ _ _ _ _ H)
    as (cid & evs & reqs & H1 & H2 & _ & _ & H5 & _ & _ & H6).
  exists cid, evs, reqs. split; [exact H1|]. split; [exact H2|].
  pose proof (Forall2_length H6) as L. rewrite sample_main in H2. inversion H2; subst evs.
  simpl in L.
  destruct reqs as [|r0 [|r1 [|r2 reqs]]]; cbn [length] in L; try lia.
  split; [reflexivity|]. split; [reflexivity|].
  apply Permutation_length in H5. rewrite H5. reflexivity.
Defined.

(** [main] succeeds (up to [batch.execute()]) exactly when [get_calendar]
    returns an id, both generators run to their end, they yield at most
    [MAX_BATCH_LIMIT] events, and the keys [create_event] reads are present
    (which is only checked when there is an event). *)
Theorem main_run_succeeds_iff (new_id : list calendar -> string) (ac : api_config)
  (cfg : config) (clk : clock_src) (sheets : list (string * frame)) (resp : nat -> bool)
  (sv : service) :
  fst (main_run new_id ac cfg clk sheets resp sv) = MOk tt <->
  (exists cid, fst (get_calendar new_id ac sv) = MOk cid) /\
  exists evs, main_events cfg clk sheets = Ok evs /\
    (length evs <= MAX_BATCH_LIMIT)%nat /\
    Forall (fun ev => exists bd, create_body ac ev = MOk bd) evs.
Proof.
  split.
  - intros H. destruct (main_run new_id ac cfg clk sheets resp sv) as [[u|e] sv'] eqn:Hr;
      [|discriminate]. destruct u.
    destruct (main_run_ok new_id ac cfg clk sheets resp sv sv' Hr)
      as (cid & sv1 & evs & reqs & Hg & Hm & Hl & Hf & _).
    split; [exists cid; rewrite Hg; reflexivity|].
    exists evs. split; [exact Hm|]. split; [exact Hl|].
    clear -Hf. induction Hf as [|ev r evs reqs [bd [Hb _]] _ IH]; constructor; eauto.
  - intros [[cid Hg] [evs [Hm [Hl Hf]]]].
    destruct (main_events_gens cfg clk sheets evs Hm) as (gevs & revs & n & H1 & H2 & ->).
    apply Forall_app in Hf as [Fg Fr]. rewrite length_app in Hl.
    destruct (add_events_complete ac cid gevs [] ltac:(simpl; lia) Fg) as [b Hb].
    destruct (add_events_ok ac cid gevs [] b Hb) as [_ [reqs1 [-> F1]]].
    destruct (add_events_complete ac cid revs reqs1
                ltac:(rewrite <- (Forall2_length F1); lia) Fr) as [b' Hb'].
    unfold main_run. destruct (get_calendar new_id ac sv) as [r sv1]. simpl in Hg. subst r.
    rewrite H1. unfold add_gen. rewrite H2. simpl. rewrite Hb. simpl. rewrite Hb'. reflexivity.
Qed.

(** Whenever [main] fails after [get_calendar] (a generator's exception, a
    missing key, [BatchError]), [batch.execute()] is never reached: the
    server is left exactly as [get_calendar] left it, with no event
    inserted, but with the calendar it may have created. *)
Lemma main_run_fail_state (new_id : list calendar -> string) (ac : api_config)
  (cfg : config) (clk : clock_src) (sheets : list (string * frame)) (resp : nat -> bool)
  (sv : service) (e : main_error) :
  fst (main_run new_id ac cfg clk sheets resp sv) = MErr e ->
  snd (main_run new_id ac cfg clk sheets resp sv) = snd (get_calendar new_id ac sv).
Proof.
  unfold main_run. destruct (get_calendar new_id ac sv) as [[cid|e'] sv1]; [|reflexivity].
  destruct (get_events_from_df cfg clk sheets 0) as [g1 n].
  destruct (add_gen ac cid g1 []) as [b|e']; [|reflexivity].
  destruct (add_gen ac cid (fst (get_recurrence_events cfg clk n)) b);
    [discriminate | reflexivity].
Qed.

(** Every failing run of [main] leaves the server as [get_calendar] left it:
    no event inserted, the calendar possibly created. *)
Theorem main_run_all_or_nothing (new_id : list calendar -> string) (ac : api_config)
  (cfg : config) (clk : clock_src) (sheets : list (string * frame)) (resp : nat -> bool)
  (sv : service) (e : main_error) :
  fst (main_run new_id ac cfg clk sheets resp sv) = MErr e ->
  events_store (snd (main_run new_id ac cfg clk sheets resp sv)) = events_store sv /\
  snd (main_run new_id ac cfg clk sheets resp sv) = snd (get_calendar new_id ac sv).
Proof.
  intros H. pose proof (main_run_fail_state _ _ _ _ _ _ _ _ H) as Hs.
  split; [rewrite Hs; apply get_calendar_store | exact Hs].
Qed.

Lemma main_run_all_or_nothing_witness :
  fst (main_run sample_new_id sample_api sample_cfg sample_clk [("Sheet1", alias_row0_df)]
         (fun _ => true) sample_service) = MErr (Gen_error (ValueError_no_date (0, 1))) /\
  events_store (snd (main_run sample_new_id sample_api sample_cfg sample_clk
                       [("Sheet1", alias_row0_df)] (fun _ => true) sample_service)) = [] /\
  calendars (snd (main_run sample_new_id sample_api sample_cfg sample_clk
                    [("Sheet1", alias_row0_df)] (fun _ => true) sample_service))
    = [mk_calendar "Personal" "cal00" "UTC";
       mk_calendar "Volunteering" "cal01" "America/New_York"].
Proof.
  assert (H : fst (main_run sample_new_id sample_api sample_cfg sample_clk
                     [("Sheet1", alias_row0_df)] (fun _ => true) sample_service)
              = MErr (Gen_error (ValueError_no_date (0, 1)))) by (vm_compute; reflexivity).
  destruct (main_run_all_or_nothing _ _ _ _ _ _ _ _ H) as [H1 H2].
  split; [exact H|]. split; [exact H1|]. rewrite H2. vm_compute. reflexivity.
Defined.

(** When an entry of the grid or a recurring schedule fails ([main_events]
    raises), [main] fails and inserts no event, not even those of the
    entries before the failing one. *)
Theorem entry_error_inserts_nothing (new_id : list calendar -> string) (ac : api_config)
  (cfg : config) (clk : clock_src) (sheets : list (string * frame)) (resp : nat -> bool)
  (sv : service) (e : error) :
  main_events cfg clk sheets = Err e ->
  (exists e', fst (main_run new_id ac cfg clk sheets resp sv) = MErr e') /\
  events_store (snd (main_run new_id ac cfg clk sheets resp sv)) = events_store sv.
Proof.
  intros Hm.
  destruct (main_run new_id ac cfg clk sheets resp sv) as [[u|e'] sv'] eqn:Hr.
  - destruct u. destruct (main_run_ok _ _ _ _ _ _ _ _ Hr) as (_ & _ & evs & _ & _ & Hm' & _).
    congruence.
  - assert (Hf : fst (main_run new_id ac cfg clk sheets resp sv) = MErr e')
      by (rewrite Hr; reflexivity).
    pose proof (main_run_fail_state _ _ _ _ _ _ _ _ Hf) as Hs. rewrite Hr in Hs. simpl in Hs.
    split; [exists e'; reflexivity|]. simpl. rewrite Hs. apply get_calendar_store.
Qed.

Lemma entry_error_inserts_nothing_witness :
  length (fst (fst (get_events_from_df sample_cfg sample_clk
                      [("Sheet1", sample_df); ("Sheet2", mismatch_df)] 0))) = 1%nat /\
  main_events sample_cfg sample_clk [("Sheet1", sample_df); ("Sheet2", mismatch_df)]
    = Err (AssertionError_day (3, 1)) /\
  (exists e', fst (main_run sample_new_id sample_api sample_cfg sample_clk
                    [("Sheet1", sample_df); ("Sheet2", mismatch_df)] (fun _ => true)
                    sample_service) = MErr e') /\
  events_store (snd (main_run sample_new_id sample_api sample_cfg sample_clk
                       [("Sheet1", sample_df); ("Sheet2", mismatch_df)] (fun _ => true)
                       sample_service)) = [].
Proof.
  assert (H : main_events sample_cfg sample_clk [("Sheet1", sample_df); ("Sheet2", mismatch_df)]
              = Err (AssertionError_day (3, 1))) by (vm_compute; reflexivity).
  split; [vm_compute; reflexivity|]. split; [exact H|].
  exact (entry_error_inserts_nothing sample_new_id sample_api sample_cfg sample_clk
           [("Sheet1", sample_df); ("Sheet2", mismatch_df)] (fun _ => true) sample_service _ H).
Defined.

(** More than [MAX_BATCH_LIMIT] (1000) events in one run: [batch.add]
    raises [BatchError] before the batch is executed, so the run fails and
    inserts no event at all. *)
Theorem batch_limit_inserts_nothing (new_id : list calendar -> string) (ac : api_config)
  (cfg : config) (clk : clock_src) (sheets : list (string * frame)) (resp : nat -> bool)
  (sv : service) (evs : list event) :
  main_events cfg clk sheets = Ok evs ->
  (MAX_BATCH_LIMIT < length evs)%nat ->
  (exists e, fst (main_run new_id ac cfg clk sheets resp sv) = MErr e) /\
  events_store (snd (main_run new_id ac cfg clk sheets resp sv)) = events_store sv.
Proof.
  intros Hm Hl.
  destruct (main_run new_id ac cfg clk sheets resp sv) as [[u|e'] sv'] eqn:Hr.
  - destruct u.
    destruct (main_run_ok _ _ _ _ _ _ _ _ Hr) as (_ & _ & evs' & _ & _ & Hm' & Hl' & _).
    rewrite Hm in Hm'. inversion Hm'; subst. lia.
  - assert (Hf : fst (main_run new_id ac cfg clk sheets resp sv) = MErr e')
      by (rewrite Hr; reflexivity).
    pose proof (main_run_fail_state _ _ _ _ _ _ _ _ Hf) as Hs. rewrite Hr in Hs. simpl in Hs.
    split; [exists e'; reflexivity|]. simpl. rewrite Hs. apply get_calendar_store.
Qed.

Lemma batch_limit_inserts_nothing_witness :
  exists evs, main_events many_cfg sample_clk [] = Ok evs /\
    (MAX_BATCH_LIMIT < length evs)%nat /\
    (exists e, fst (main_run sample_new_id sample_api many_cfg sample_clk [] (fun _ => true)
                      sample_service) = MErr e) /\
    events_store (snd (main_run sample_new_id sample_api many_cfg sample_clk [] (fun _ => true)
                         sample_service)) = [].
Proof.
  destruct (main_events many_cfg sample_clk []) as [evs|e] eqn:Hm.
  - assert (E : match main_events many_cfg sample_clk [] with
                 | Ok l => length l | Err _ => O end = 1001%nat) by (vm_compute; reflexivity).
    rewrite Hm in E.
    assert (Hl : (MAX_BATCH_LIMIT < length evs)%nat) by (rewrite E; unfold MAX_BATCH_LIMIT; lia).
    exists evs. split; [reflexivity|]. split; [exact Hl|].
    exact (batch_limit_inserts_nothing sample_new_id sample_api many_cfg sample_clk []
             (fun _ => true) sample_service evs Hm Hl).
  - vm_compute in Hm. discriminate.
Defined.

(** Running [main] again after a successful run, with the same inputs and
    the same clock readings, succeeds whatever the server answers, creates
    no calendar (when the server had fewer than a page of calendars before
    the first run) and sends every insert request of the first run again:
    the runs never update or deduplicate events, so an event the server
    accepts both times is stored twice.  The first run created at most one
    calendar. *)
Theorem main_run_twice (new_id : list calendar -> string) (ac : api_config) (cfg : config)
  (clk : clock_src) (sheets : list (string * frame)) (resp1 resp2 : nat -> bool)
  (sv sv1 : service) :
  main_run new_id ac cfg clk sheets resp1 sv = (MOk tt, sv1) ->
  (length (calendars sv) < PAGE_SIZE)%nat ->
  exists reqs sv2,
    main_run new_id ac cfg clk sheets resp2 sv1 = (MOk tt, sv2) /\
    Permutation (events_store sv1) (app (events_store sv) (accepted resp1 0 reqs)) /\
    Permutation (events_store sv2) (app (events_store sv1) (accepted resp2 0 reqs)) /\
    calendars sv2 = calendars sv1 /\
    (calendars sv1 = calendars sv \/ exists c, calendars sv1 = app (calendars sv) [c]).
Proof.
  intros H Hlen. unfold main_run in H.
  destruct (get_calendar new_id ac sv) as [[cid|e] sv1'] eqn:Hg; [|discriminate].
  destruct (get_events_from_df cfg clk sheets 0) as [g1 n] eqn:He.
  destruct (add_gen ac cid g1 []) as [b|e] eqn:H1; [|discriminate].
  destruct (add_gen ac cid (fst (get_recurrence_events cfg clk n)) b) as [b'|e] eqn:H2;
    [|discriminate].
  inversion H; subst sv1. clear H.
  destruct (get_calendar_again new_id ac sv sv1' (execute resp1 b' sv1') cid Hg Hlen eq_refl)
    as [A B].
  pose proof (get_calendar_store new_id ac (execute resp1 b' sv1')) as S2.
  pose proof (get_calendar_store new_id ac sv) as S1. rewrite Hg in S1. simpl in S1.
  destruct (get_calendar new_id ac (execute resp1 b' sv1')) as [r sv2] eqn:Hg2.
  simpl in A, B, S2. subst r.
  exists b', (execute resp2 b' sv2). split.
  { unfold main_run. rewrite Hg2, He, H1, H2. reflexivity. }
  simpl. rewrite S2, S1. simpl. split; [apply Permutation_refl|].
  split; [apply Permutation_refl|].
  split; [exact B|].
  destruct (get_calendar_ok new_id ac sv cid sv1' Hg)
    as [name [_ [[c [_ [_ Hc]]]|[tz [_ [_ [_ Hc]]]]]]]; rewrite Hc; eauto.
Qed.

Lemma main_run_twice_witness :
  main_run sample_new_id sample_api sample_cfg sample_clk [("Sheet1", sample_df)]
    (fun _ => true) sample_service
    = (MOk tt, snd (main_run sample_new_id sample_api sample_cfg sample_clk
                      [("Sheet1", sample_df)] (fun _ => true) sample_service)) /\
  (length (calendars sample_service) < PAGE_SIZE)%nat /\
  exists (reqs : list request) sv2,
    main_run sample_new_id sample_api sample_cfg sample_clk [("Sheet1", sample_df)]
      (fun _ => true)
      (snd (main_run sample_new_id sample_api sample_cfg sample_clk
              [("Sheet1", sample_df)] (fun _ => true) sample_service)) = (MOk tt, sv2) /\
    length (events_store sv2) = (2 * length reqs)%nat /\ length reqs = 2%nat.
Proof.
  assert (H : main_run sample_new_id sample_api sample_cfg sample_clk [("Sheet1", sample_df)]
                (fun _ => true) sample_service
              = (MOk tt, snd (main_run sample_new_id sample_api sample_cfg sample_clk
                                [("Sheet1", sample_df)] (fun _ => true) sample_service)))
    by (vm_compute; reflexivity).
  assert (Hl : (length (calendars sample_service) < PAGE_SIZE)%nat) by (vm_compute; lia).
  split; [exact H|]. split; [exact Hl|].
  destruct (main_run_twice _ _ _ _ _ _ (fun _ => true) _ _ H Hl)
    as (reqs & sv2 & H1 & H2 & H3 & _).
  exists reqs, sv2. split; [exact H1|].
  rewrite accepted_all in H2, H3.
  apply Permutation_length in H2, H3. rewrite length_app in H2, H3.
  assert (L : length (events_store (snd (main_run sample_new_id sample_api sample_cfg sample_clk
                [("Sheet1", sample_df)] (fun _ => true) sample_service))) = 2%nat)
    by (vm_compute; reflexivity).
  rewrite L in H2. simpl in H2. rewrite H3, L. lia.
Defined.

(** [get_cfg] with [LALITHA_PATH] set to [dp]: on success the configuration
    was read from [os.path.join(dp, "cfg.yml")], holds string
    [token_name] and [cred_name], and the result is that mapping with
    [token_path] and [cred_path] set to [os.path.join(dp, name)] (an
    absolute name is kept as it is); every other key keeps its value. *)
Theorem get_cfg_paths (dp : string) (load : string -> option ydict) (cfg : ydict) :
  get_cfg (Some dp) load = MOk cfg ->
  exists raw tn cn,
    load (path_join dp CFG_NAME) = Some raw /\
    dict_get raw "token_name" = Some (YStr tn) /\
    dict_get raw "cred_name" = Some (YStr cn) /\
    dict_get cfg "token_path" = Some (YStr (path_join dp tn)) /\
    dict_get cfg "cred_path" = Some (YStr (path_join dp cn)) /\
    (forall k, k <> "token_path" -> k <> "cred_path" -> dict_get cfg k = dict_get raw k).
Proof.
  unfold get_cfg. destruct (load (path_join dp CFG_NAME)) as [raw|] eqn:Hl; [|discriminate].
  destruct (join_key dp raw "token_name") as [tp|e] eqn:Ht; [|discriminate].
  destruct (join_key dp (dict_set raw "token_path" (YStr tp)) "cred_name") as [cp|e] eqn:Hc;
    [|discriminate].
  intros H. inversion H; subst cfg. clear H.
  apply join_key_ok in Ht as [tn [Htn ->]]. apply join_key_ok in Hc as [cn [Hcn ->]].
  rewrite dict_get_set_other in Hcn by discriminate.
  exists raw, tn, cn. split; [reflexivity|]. split; [exact Htn|]. split; [exact Hcn|].
  split.
  { rewrite dict_get_set_other by discriminate. apply dict_get_set_same. }
  split; [apply dict_get_set_same|].
  intros k Hk1 Hk2. rewrite !dict_get_set_other by assumption. reflexivity.
Qed.

Lemma get_cfg_paths_witness :
  get_cfg (Some "/home/lalitha") sample_load
    = MOk (dict_set (dict_set sample_yaml "token_path" (YStr "/home/lalitha/token.json"))
             "cred_path" (YStr "/etc/lalitha/credentials.json")) /\
  dict_get (dict_set (dict_set sample_yaml "token_path" (YStr "/home/lalitha/token.json"))
              "cred_path" (YStr "/etc/lalitha/credentials.json")) "token_path"
    = Some (YStr "/home/lalitha/token.json") /\
  dict_get (dict_set (dict_set sample_yaml "token_path" (YStr "/home/lalitha/token.json"))
              "cred_path" (YStr "/etc/lalitha/credentials.json")) "cred_path"
    = Some (YStr "/etc/lalitha/credentials.json").
Proof.
  assert (H : get_cfg (Some "/home/lalitha") sample_load
    = MOk (dict_set (dict_set sample_yaml "token_path" (YStr "/home/lalitha/token.json"))
             "cred_path" (YStr "/etc/lalitha/credentials.json"))) by (vm_compute; reflexivity).
  destruct (get_cfg_paths _ _ _ H) as (raw & tn & cn & Hl & Ht & Hc & T & C & _).
  vm_compute in Hl. inversion Hl; subst raw.
  vm_compute in Ht, Hc. inversion Ht; inversion Hc; subst tn cn.
  split; [exact H|]. split; [rewrite T | rewrite C]; reflexivity.
Defined.

Lemma scan_cells_nomatch (cfg : config) (clk : clock_src) (df : frame)
  (cells : list ((Z * Z) * bool)) (n : nat) :
  (forall x, In x cells -> snd x = false) -> scan_cells cfg clk df cells n = (([], None), n).
Proof.
  induction cells as [|[[r c] v] rest IH]; intros H; simpl; [reflexivity|].
  assert (Hv : v = false) by (apply (H ((r, c), v)); left; reflexivity). subst v.
  apply IH. intros x Hx. apply H. right. exact Hx.
Qed.

(** Sheets in which no cell holds an alias give no event, raise nothing and
    read no clock, whatever else they hold: the run is that of no sheets at
    all. *)
Theorem no_alias_no_grid_events (cfg : config) (clk : clock_src)
  (sheets : list (string * frame)) :
  (forall name df, In (name, df) sheets ->
     forall r c, isin (aliases cfg) (iloc df r c) = false) ->
  get_events_from_df cfg clk sheets 0 = (([], None), 0%nat) /\
  main_events cfg clk sheets = main_events cfg clk [].
Proof.
  intros H.
  assert (G : forall n, get_events_from_df cfg clk sheets n = (([], None), n)).
  { induction sheets as [|[name df] rest IH]; intros n; simpl; [reflexivity|].
    rewrite scan_cells_nomatch.
    - rewrite IH; [reflexivity|]. intros nm d Hin. apply (H nm d). right. exact Hin.
    - intros [[r c] b] Hx. apply in_stack_isin in Hx as (_ & _ & ->).
      apply (H name df). left. reflexivity. }
  split; [apply G|]. unfold main_events. rewrite G. reflexivity.
Qed.

Lemma no_alias_no_grid_events_witness :
  (forall name df, In (name, df) [("Sheet1", no_alias_df)] ->
     forall r c, isin (aliases sample_cfg) (iloc df r c) = false) /\
  get_events_from_df sample_cfg sample_clk [("Sheet1", no_alias_df)] 0 = (([], None), 0%nat) /\
  main_events sample_cfg sample_clk [("Sheet1", no_alias_df)]
    = main_events sample_cfg sample_clk [].
Proof.
  assert (H : forall name df, In (name, df) [("Sheet1", no_alias_df)] ->
                forall r c, isin (aliases sample_cfg) (iloc df r c) = false).
  { intros name df [E|[]] r c. inversion E; subst. unfold iloc.
    destruct r as [|[|[|r]]]; destruct c as [|[|c]]; simpl;
      destruct_goal_matches; reflexivity. }
  split.
  - exact H.
  - exact (no_alias_no_grid_events sample_cfg sample_clk [("Sheet1", no_alias_df)] H).
Defined.

(** An alias in the first row of a sheet has no row above it to hold a date:
    the run fails, with that cell's [ValueError] or with an earlier
    entry's exception. *)
Theorem alias_in_first_row_fails (cfg : config) (clk : clock_src)
  (sheets : list (string * frame)) (name : string) (df : frame) (c : nat) :
  In (name, df) sheets -> (0 < length df)%nat -> (c < width df)%nat ->
  isin (aliases cfg) (iloc df 0 c) = true ->
  (forall n, event_for_match cfg clk n df 0 (Z.of_nat c)
             = Err (ValueError_no_date (0, Z.of_nat c))) /\
  exists e, main_events cfg clk sheets = Err e.
Proof.
  intros Hs Hr Hc Hi.
  assert (E : forall n, event_for_match cfg clk n df 0 (Z.of_nat c)
                        = Err (ValueError_no_date (0, Z.of_nat c))) by reflexivity.
  split; [exact E|].
  apply (entry_failure_fatal cfg clk sheets name df 0 (Z.of_nat c) Hs).
  - apply in_stack_isin. rewrite Nat2Z.id. simpl. repeat split; try lia. symmetry. exact Hi.
  - intros n. eexists. apply E.
Qed.

Lemma alias_in_first_row_fails_witness :
  In ("Sheet1", alias_row0_df) [("Sheet1", alias_row0_df)] /\
  (0 < length alias_row0_df)%nat /\ (1 < width alias_row0_df)%nat /\
  isin (aliases sample_cfg) (iloc alias_row0_df 0 1) = true /\
  exists e, main_events sample_cfg sample_clk [("Sheet1", alias_row0_df)] = Err e.
Proof.
  assert (Hs : In ("Sheet1", alias_row0_df) [("Sheet1", alias_row0_df)]) by (left; reflexivity).
  assert (Hr : (0 < length alias_row0_df)%nat) by (simpl; lia).
  assert (Hc : (1 < width alias_row0_df)%nat) by (vm_compute; lia).
  assert (Hi : isin (aliases sample_cfg) (iloc alias_row0_df 0 1) = true) by reflexivity.
  split; [exact Hs|]. split; [exact Hr|]. split; [exact Hc|]. split; [exact Hi|].
  exact (proj2 (alias_in_first_row_fails sample_cfg sample_clk _ "Sheet1" alias_row0_df 1
                  Hs Hr Hc Hi)).
Defined.

(** The description ends in the clock's time as ["%I:%M %p"]; read back
    with the same format by [pd.to_datetime] it is the clock's hour and
    minute (12 AM is hour 0, 12 PM hour 12). *)
Theorem description_time_roundtrip (now : clock) :
  exists date_part,
    make_description now
      = "Last updated by Lalitha on " ++ date_part ++ " at "
          ++ stamp_time (now_hour now) (now_minute now) ++ newline /\
    to_datetime_IMp (stamp_time (now_hour now) (now_minute now))
      = Some (PVal (now_hour now * 3600 + now_minute now * 60)).
Proof.
  unfold make_description, strftime_now.
  destruct (civil_from_days (now_day now)) as [[y m] d].
  exists (fmt_2 m ++ "/" ++ fmt_2 d ++ "/" ++ fmt_Y y). split.
  - unfold stamp_time. cbv zeta. rewrite !string_app_assoc. reflexivity.
  - apply stamp_time_parse; [apply now_hour_range | apply now_minute_range].
Qed.

Lemma description_time_roundtrip_witness :
  exists date_part,
    make_description (clock_at 19140 0 7)
      = "Last updated by Lalitha on " ++ date_part ++ " at " ++ stamp_time 0 7 ++ newline /\
    to_datetime_IMp (stamp_time 0 7) = Some (PVal (0 * 3600 + 7 * 60)).
Proof.
  exact (description_time_roundtrip (clock_at 19140 0 7)).
Defined.
